(** * Keyboard-driven ODrive control scripts: model and properties

    The repository holds three Python scripts:
    - [py_twomotortest.py]: two motors, raw-mode key sampling in a daemon
      thread, the main thread waits on the [running] flag;
    - [py_keycontroltest.py]: the same sampling loop with printed actions
      in place of motor commands;
    - [py_onewheeltest.py]: one motor, line-based commands read with
      [input()].

    The scripts are embedded as functions in a state-and-exception monad
    over a record [world] that holds everything they read or write: the
    console, the terminal settings, the [input_vel] set-point of both
    axes, and the module globals [running] and [current_key]. *)

From Stdlib Require Import ZArith List String Ascii Bool Lia.
From Stdlib Require Import DecimalString.
Import ListNotations.
Local Open Scope string_scope.
Local Open Scope Z_scope.
Local Open Scope list_scope.

(** ** Python values and exceptions *)

Module Py.

(** The exceptions the scripts can meet.  [KeyboardInterrupt] and
    [SystemExit] derive from [BaseException] only; the rest derive from
    [Exception], which is what [except Exception] catches. *)
Inductive exn : Type :=
| KeyboardInterrupt
| SystemExit (code : Z)
| EOFError
| Exception (msg : string).

Definition isinstance_Exception (e : exn) : bool :=
  match e with
  | KeyboardInterrupt | SystemExit _ => false
  | EOFError | Exception _ => true
  end.

(** [str(e)] *)
Definition str_exn (e : exn) : string :=
  match e with
  | KeyboardInterrupt => ""
  | SystemExit c => NilZero.string_of_int (Z.to_int c)
  | EOFError => "EOF when reading a line"
  | Exception msg => msg
  end.

(** [str(n)] for an integer, as an f-string interpolates it. *)
Definition str_int (n : Z) : string := NilZero.string_of_int (Z.to_int n).

Definition nl : string := String (ascii_of_nat 10) EmptyString.

(** [c.lower()] on one character; code points outside A-Z are left alone
    (the scripts only compare the result with ['q']). *)
Definition lower_ascii (c : ascii) : ascii :=
  let n := nat_of_ascii c in
  if (Nat.leb 65 n && Nat.leb n 90)%bool then ascii_of_nat (n + 32) else c.

Fixpoint lower (s : string) : string :=
  match s with
  | EmptyString => EmptyString
  | String c s' => String (lower_ascii c) (lower s')
  end.

(** [x == y] on values that are a [str] or [None]. *)
Definition opt_str_eqb (x y : option string) : bool :=
  match x, y with
  | Some a, Some b => String.eqb a b
  | None, None => true
  | _, _ => false
  end.

(** [d.get(key, default)] on a dict literal, kept as its item list. *)
Fixpoint dict_lookup (d : list (string * string)) (key : string) : option string :=
  match d with
  | [] => None
  | (k, v) :: d' => if String.eqb k key then Some v else dict_lookup d' key
  end.

Definition dict_get (d : list (string * string)) (key default : string) : string :=
  match dict_lookup d key with
  | Some v => v
  | None => default
  end.

(** [x in xs] on a list of strings. *)
Definition str_in (x : option string) (xs : list string) : bool :=
  existsb (fun y => opt_str_eqb x (Some y)) xs.

End Py.
Import Py.

(** ** The terminal *)

Module Termios.

(** What [termios.tcgetattr] returns: the four flag words and the control
    characters (line speeds are not touched by the scripts). *)
Record attrs : Type := mkAttrs {
  iflag : Z;
  oflag : Z;
  cflag : Z;
  lflag : Z;
  cc : list Z
}.

(** Linux values of the flags [tty.setraw] uses. *)
Definition BRKINT : Z := 2.
Definition ICRNL : Z := 256.
Definition INPCK : Z := 16.
Definition ISTRIP : Z := 32.
Definition IXON : Z := 1024.
Definition OPOST : Z := 1.
Definition CSIZE : Z := 48.
Definition PARENB : Z := 256.
Definition CS8 : Z := 48.
Definition ECHO : Z := 8.
Definition ICANON : Z := 2.
Definition IEXTEN : Z := 32768.
Definition ISIG : Z := 1.
Definition VMIN : nat := 6.
Definition VTIME : nat := 5.

Fixpoint list_set (l : list Z) (i : nat) (v : Z) : list Z :=
  match l, i with
  | [], _ => []
  | _ :: t, O => v :: t
  | h :: t, S j => h :: list_set t j v
  end.

(** The mode [tty.setraw] of the Python library installs: no echo, no
    line buffering, no signal keys, one byte at a time. *)
Definition raw_of (mode : attrs) : attrs :=
  {| iflag := Z.ldiff (iflag mode)
                (Z.lor BRKINT (Z.lor ICRNL (Z.lor INPCK (Z.lor ISTRIP IXON))));
     oflag := Z.ldiff (oflag mode) OPOST;
     cflag := Z.lor (Z.ldiff (cflag mode) (Z.lor CSIZE PARENB)) CS8;
     lflag := Z.ldiff (lflag mode)
                (Z.lor ECHO (Z.lor ICANON (Z.lor IEXTEN ISIG)));
     cc := list_set (list_set (cc mode) VMIN 1) VTIME 0 |}.

(** Calls made to the terminal device, in order. *)
Inductive op : Type :=
| Tcgetattr
| Setraw
| Select
| Read
| Tcsetattr (mode : attrs).

Definition is_setraw (o : op) : bool :=
  match o with Setraw => true | _ => false end.

Definition is_tcsetattr (o : op) : bool :=
  match o with Tcsetattr _ => true | _ => false end.

End Termios.

(** ** The world the scripts act on *)

(** [odrv.axis0] and [odrv.axis1]. *)
Inductive axis : Type := axis0 | axis1.

Definition axis_eqb (a b : axis) : bool :=
  match a, b with
  | axis0, axis0 | axis1, axis1 => true
  | _, _ => false
  end.

(** One attempted assignment [axis.controller.input_vel = velocity]. *)
Definition command : Type := (axis * Z)%type.

Record world : Type := mkWorld {
  stdout : list string;            (* what was printed, oldest first *)
  term : Termios.attrs;            (* current settings of the terminal *)
  term_ops : list Termios.op;      (* terminal calls, oldest first *)
  input_vel0 : Z;                  (* axis0.controller.input_vel *)
  input_vel1 : Z;                  (* axis1.controller.input_vel *)
  commands : list command;         (* attempted set-point writes, oldest first *)
  faults : list (option string);   (* fate of the coming writes: [Some msg]
                                      makes the device raise Exception(msg) *)
  running : bool;                  (* global [running] *)
  current_key : option string      (* global [current_key] *)
}.

Definition input_vel (a : axis) (w : world) : Z :=
  match a with axis0 => input_vel0 w | axis1 => input_vel1 w end.

Definition with_stdout (w : world) (v : list string) : world :=
  mkWorld v (term w) (term_ops w) (input_vel0 w) (input_vel1 w)
          (commands w) (faults w) (running w) (current_key w).

Definition with_term (w : world) (v : Termios.attrs) : world :=
  mkWorld (stdout w) v (term_ops w) (input_vel0 w) (input_vel1 w)
          (commands w) (faults w) (running w) (current_key w).

Definition with_term_ops (w : world) (v : list Termios.op) : world :=
  mkWorld (stdout w) (term w) v (input_vel0 w) (input_vel1 w)
          (commands w) (faults w) (running w) (current_key w).

Definition with_input_vel (w : world) (a : axis) (v : Z) : world :=
  match a with
  | axis0 => mkWorld (stdout w) (term w) (term_ops w) v (input_vel1 w)
                     (commands w) (faults w) (running w) (current_key w)
  | axis1 => mkWorld (stdout w) (term w) (term_ops w) (input_vel0 w) v
                     (commands w) (faults w) (running w) (current_key w)
  end.

Definition with_commands (w : world) (v : list command) : world :=
  mkWorld (stdout w) (term w) (term_ops w) (input_vel0 w) (input_vel1 w)
          v (faults w) (running w) (current_key w).

Definition with_faults (w : world) (v : list (option string)) : world :=
  mkWorld (stdout w) (term w) (term_ops w) (input_vel0 w) (input_vel1 w)
          (commands w) v (running w) (current_key w).

Definition with_running (w : world) (v : bool) : world :=
  mkWorld (stdout w) (term w) (term_ops w) (input_vel0 w) (input_vel1 w)
          (commands w) (faults w) v (current_key w).

Definition with_current_key (w : world) (v : option string) : world :=
  mkWorld (stdout w) (term w) (term_ops w) (input_vel0 w) (input_vel1 w)
          (commands w) (faults w) (running w) v.

(** ** State and exceptions *)

Inductive outcome (A : Type) : Type :=
| Ret (a : A)
| Raise (e : exn).
Arguments Ret {A} a.
Arguments Raise {A} e.

Definition M (A : Type) : Type := world -> outcome A * world.

Definition ret {A} (a : A) : M A := fun w => (Ret a, w).

Definition raise {A} (e : exn) : M A := fun w => (Raise e, w).

Definition bind {A B} (m : M A) (k : A -> M B) : M B :=
  fun w =>
    match m w with
    | (Ret a, w') => k a w'
    | (Raise e, w') => (Raise e, w')
    end.

Notation "x <- m ;; k" := (bind m (fun x => k))
  (at level 61, m at next level, right associativity).
Notation "m ;; k" := (bind m (fun _ => k))
  (at level 61, right associativity).

(** [try: body / except Exception as e: handler(e)] *)
Definition try_except {A} (body : M A) (handler : exn -> M A) : M A :=
  fun w =>
    match body w with
    | (Ret a, w') => (Ret a, w')
    | (Raise e, w') =>
        if isinstance_Exception e then handler e w' else (Raise e, w')
    end.

(** [try: body / finally: cleanup] *)
Definition try_finally {A} (body : M A) (cleanup : M unit) : M A :=
  fun w =>
    match body w with
    | (r, w') =>
        match cleanup w' with
        | (Ret _, w'') => (r, w'')
        | (Raise e, w'') => (Raise e, w'')
        end
    end.

Definition gets {A} (f : world -> A) : M A := fun w => (Ret (f w), w).

Definition modify (f : world -> world) : M unit := fun w => (Ret tt, f w).

(** [print(s)] *)
Definition print (s : string) : M unit :=
  modify (fun w => with_stdout w (stdout w ++ [s])).

(** [time.sleep(t)]: no effect on the world. *)
Definition sleep : M unit := ret tt.

(** [axis.controller.input_vel = velocity]: the write is attempted, and
    the head of [faults] says whether the device takes it or raises. *)
Definition assign_input_vel (a : axis) (velocity : Z) : M unit :=
  fun w =>
    let w1 := with_commands w (commands w ++ [(a, velocity)]) in
    match faults w with
    | Some msg :: rest => (Raise (Exception msg), with_faults w1 rest)
    | None :: rest => (Ret tt, with_input_vel (with_faults w1 rest) a velocity)
    | [] => (Ret tt, with_input_vel w1 a velocity)
    end.

Definition term_call (o : Termios.op) : M unit :=
  modify (fun w => with_term_ops w (term_ops w ++ [o])).

(** [termios.tcgetattr(fd)] *)
Definition tcgetattr : M Termios.attrs :=
  term_call Termios.Tcgetattr ;; gets term.

(** [tty.setraw(fd)] *)
Definition setraw : M unit :=
  term_call Termios.Setraw ;;
  modify (fun w => with_term w (Termios.raw_of (term w))).

(** [termios.tcsetattr(fd, termios.TCSADRAIN, mode)] *)
Definition tcsetattr (mode : Termios.attrs) : M unit :=
  term_call (Termios.Tcsetattr mode) ;;
  modify (fun w => with_term w mode).

(** What the terminal delivers during one 0.5 s [select] window: nothing,
    or a byte, which [read(1)] hands over as a one-character string (the
    keys the scripts know are ASCII). *)
Definition tty_event : Type := option ascii.

(** [select.select([sys.stdin], [], [], 0.5)]: is the read list non-empty? *)
Definition select (ev : tty_event) : M bool :=
  term_call Termios.Select ;;
  ret (match ev with Some _ => true | None => false end).

(** [sys.stdin.read(1)]: the byte that [select] reported. *)
Definition stdin_read1 (ev : tty_event) : M string :=
  term_call Termios.Read ;;
  ret (match ev with Some c => String c EmptyString | None => EmptyString end).

(** The bytes the samplers single out. *)
Definition CTRL_C : string := String (ascii_of_nat 3) EmptyString.
Definition ESC : string := String (ascii_of_nat 27) EmptyString.

(** How a loop body leaves: on to the next iteration, or [break]. *)
Inductive loop_ctl : Type := Continue | Break.

(** A thread: still in its loop, returned, or ended by an exception that
    nothing caught. *)
Inductive thread_status : Type :=
| Alive
| Returned
| Died (e : exn).

(** The main thread: in its [while running] wait, or past its [finally]
    block (the process has exited; a daemon thread dies with it). *)
Inductive main_status : Type := Waiting | Exited.

Record process : Type := mkProcess {
  mem : world;
  monitor : thread_status;
  main_thread : main_status
}.

(** What can happen to the process: the monitor thread gets its next
    sampling window, the SIGINT signal arrives, or the main thread wakes
    from its [time.sleep(0.1)]. *)
Inductive stimulus : Type :=
| Tty (ev : tty_event)
| SIGINT
| Tick.

Definition world0 (mode : Termios.attrs) (fs : list (option string)) : world :=
  mkWorld [] mode [] 0 0 [] fs true None.

Definition process0 (mode : Termios.attrs) (fs : list (option string)) : process :=
  mkProcess (world0 mode fs) Alive Waiting.

(** ** py_twomotortest.py *)

Module TwoMotor.

Definition LEFT_MOTOR_INDEX : axis := axis0.
Definition RIGHT_MOTOR_INDEX : axis := axis1.
Definition VELOCITY : Z := 1.

Definition set_motor_velocity (ax : axis) (velocity : Z) : M unit :=
  try_except
    (assign_input_vel ax velocity)
    (fun e => print ("Failed to set velocity: " ++ str_exn e)).

Definition stop_motor (ax : axis) : M unit :=
  try_except
    (set_motor_velocity ax 0)
    (fun e => print ("Failed to stop motor: " ++ str_exn e)).

Definition stop_all_motors (left_axis right_axis : axis) : M unit :=
  stop_motor left_axis ;;
  stop_motor right_axis ;;
  print "All motors stopped".

Definition getch_non_blocking (ev : tty_event) : M (option string) :=
  old_settings <- tcgetattr ;;
  try_finally
    (setraw ;;
     rlist <- select ev ;;
     if rlist then
       char <- stdin_read1 ev ;;
       if String.eqb char CTRL_C then raise KeyboardInterrupt
       else if String.eqb char ESC then ret (Some "esc")
       else ret (Some char)
     else ret None)
    (tcsetattr old_settings).

Definition key_name : list (string * string) :=
  [ ("1", "Left motor forward");
    ("2", "Left motor backward");
    ("3", "Right motor forward");
    ("4", "Right motor backward");
    ("w", "Both motors forward");
    ("s", "Both motors backward");
    ("a", "Right motor forward");
    ("d", "Left motor forward");
    ("q", "Left motor backward, right motor forward");
    ("e", "Right motor backward, left motor forward");
    ("x", "Stop all motors");
    ("esc", "Quit program") ].

(** Returns [False] to ask for the quit, [True] otherwise. *)
Definition handle_motor_control (key : string) (left_axis right_axis : axis)
  : M bool :=
  print ("Command: " ++ dict_get key_name key "Unknown key") ;;
  if String.eqb key "1" then
    set_motor_velocity left_axis VELOCITY ;; ret true
  else if String.eqb key "2" then
    set_motor_velocity left_axis (- VELOCITY) ;; ret true
  else if String.eqb key "3" then
    set_motor_velocity right_axis VELOCITY ;; ret true
  else if String.eqb key "4" then
    set_motor_velocity right_axis (- VELOCITY) ;; ret true
  else if String.eqb key "w" then
    set_motor_velocity left_axis VELOCITY ;;
    set_motor_velocity right_axis VELOCITY ;; ret true
  else if String.eqb key "s" then
    set_motor_velocity left_axis (- VELOCITY) ;;
    set_motor_velocity right_axis (- VELOCITY) ;; ret true
  else if String.eqb key "a" then
    set_motor_velocity right_axis VELOCITY ;;
    set_motor_velocity left_axis 0 ;; ret true
  else if String.eqb key "d" then
    set_motor_velocity left_axis VELOCITY ;;
    set_motor_velocity right_axis 0 ;; ret true
  else if String.eqb key "q" then
    set_motor_velocity left_axis (- VELOCITY) ;;
    set_motor_velocity right_axis VELOCITY ;; ret true
  else if String.eqb key "e" then
    set_motor_velocity right_axis (- VELOCITY) ;;
    set_motor_velocity left_axis VELOCITY ;; ret true
  else if String.eqb key "x" then
    stop_all_motors left_axis right_axis ;; ret true
  else if String.eqb key "esc" then
    ret false
  else
    ret true.

(** The body of [with key_lock:] in [key_monitor_thread]. *)
Definition locked_section (key : option string) (left_axis right_axis : axis)
  : M loop_ctl :=
  match key with
  | Some k =>
      held <- gets current_key ;;
      if negb (opt_str_eqb (Some k) held) then
        modify (fun w => with_current_key w (Some k)) ;;
        go_on <- handle_motor_control k left_axis right_axis ;;
        if negb go_on then
          modify (fun w => with_running w false) ;; ret Break
        else ret Continue
      else ret Continue
  | None =>
      held <- gets current_key ;;
      match held with
      | Some _ =>
          print "Keys released, stopping all motors" ;;
          stop_all_motors left_axis right_axis ;;
          modify (fun w => with_current_key w None) ;;
          ret Continue
      | None => ret Continue
      end
  end.

(** One pass through the body of [while running:]. *)
Definition monitor_iteration (ev : tty_event) (left_axis right_axis : axis)
  : M loop_ctl :=
  key <- getch_non_blocking ev ;;
  c <- locked_section key left_axis right_axis ;;
  match c with
  | Break => ret Break
  | Continue => sleep ;; ret Continue
  end.

(** [key_monitor_thread] fed with the sampling windows [evs]; the thread
    is still [Alive] when the windows run out inside the loop. *)
Fixpoint key_monitor_thread (left_axis right_axis : axis) (evs : list tty_event)
  : M thread_status :=
  r <- gets running ;;
  if r then
    match evs with
    | [] => ret Alive
    | ev :: evs' =>
        c <- monitor_iteration ev left_axis right_axis ;;
        match c with
        | Break => ret Returned
        | Continue => key_monitor_thread left_axis right_axis evs'
        end
    end
  else ret Returned.

Definition signal_handler : M unit :=
  print (nl ++ "Ctrl+C detected. Exiting gracefully...") ;;
  modify (fun w => with_running w false).

(** The [finally] block of [main]. *)
Definition main_finally (left_axis right_axis : axis) : M unit :=
  stop_all_motors left_axis right_axis ;;
  sleep ;;
  print "Program terminated.".

(** The process after [main] has set up both motors, registered the
    signal handler and started the monitor thread. *)
Definition step (x : stimulus) (p : process) : process :=
  match main_thread p with
  | Exited => p
  | Waiting =>
      match x with
      | Tty ev =>
          match monitor p with
          | Alive =>
              if running (mem p) then
                match monitor_iteration ev LEFT_MOTOR_INDEX RIGHT_MOTOR_INDEX (mem p) with
                | (Ret Continue, w) => mkProcess w Alive Waiting
                | (Ret Break, w) => mkProcess w Returned Waiting
                | (Raise e, w) => mkProcess w (Died e) Waiting
                end
              else mkProcess (mem p) Returned Waiting
          | _ => p
          end
      | SIGINT =>
          match signal_handler (mem p) with
          | (_, w) => mkProcess w (monitor p) Waiting
          end
      | Tick =>
          if running (mem p) then p
          else
            match main_finally LEFT_MOTOR_INDEX RIGHT_MOTOR_INDEX (mem p) with
            | (_, w) => mkProcess w (monitor p) Exited
            end
      end
  end.

Definition run (xs : list stimulus) (p : process) : process :=
  fold_left (fun q x => step x q) xs p.

End TwoMotor.

(** ** py_keycontroltest.py *)

Module KeyControl.

Definition getch_non_blocking (ev : tty_event) : M (option string) :=
  old_settings <- tcgetattr ;;
  try_finally
    (setraw ;;
     rlist <- select ev ;;
     if rlist then
       char <- stdin_read1 ev ;;
       if String.eqb char CTRL_C then raise KeyboardInterrupt
       else ret (Some char)
     else ret None)
    (tcsetattr old_settings).

(** The body of [with key_lock:] in [key_monitor_thread]. *)
Definition locked_section (key : option string) : M unit :=
  match key with
  | Some k =>
      held <- gets current_key ;;
      if negb (opt_str_eqb (Some k) held) then
        modify (fun w => with_current_key w (Some k)) ;;
        if String.eqb k "1" then
          print "ACTION: Moving forward"
        else if String.eqb k "2" then
          print "ACTION: Moving backward"
        else if String.eqb (lower k) "q" then
          print (nl ++ "Quitting program...") ;;
          modify (fun w => with_running w false)
        else
          print "ACTION: Stopping (other key pressed)"
      else ret tt
  | None =>
      held <- gets current_key ;;
      (if str_in held ["1"; "2"] then print "ACTION: Stopping (key released)"
       else ret tt) ;;
      modify (fun w => with_current_key w None)
  end.

(** One pass through the body of [while running:]. *)
Definition monitor_iteration (ev : tty_event) : M unit :=
  key <- getch_non_blocking ev ;;
  locked_section key ;;
  sleep.

Fixpoint key_monitor_thread (evs : list tty_event) : M thread_status :=
  r <- gets running ;;
  if r then
    match evs with
    | [] => ret Alive
    | ev :: evs' => monitor_iteration ev ;; key_monitor_thread evs'
    end
  else ret Returned.

Definition signal_handler : M unit :=
  print (nl ++ "Ctrl+C detected. Exiting gracefully...") ;;
  modify (fun w => with_running w false).

(** The [finally] block of [main]. *)
Definition main_finally : M unit := print "Program terminated.".

Definition step (x : stimulus) (p : process) : process :=
  match main_thread p with
  | Exited => p
  | Waiting =>
      match x with
      | Tty ev =>
          match monitor p with
          | Alive =>
              if running (mem p) then
                match monitor_iteration ev (mem p) with
                | (Ret _, w) => mkProcess w Alive Waiting
                | (Raise e, w) => mkProcess w (Died e) Waiting
                end
              else mkProcess (mem p) Returned Waiting
          | _ => p
          end
      | SIGINT =>
          match signal_handler (mem p) with
          | (_, w) => mkProcess w (monitor p) Waiting
          end
      | Tick =>
          if running (mem p) then p
          else
            match main_finally (mem p) with
            | (_, w) => mkProcess w (monitor p) Exited
            end
      end
  end.

Definition run (xs : list stimulus) (p : process) : process :=
  fold_left (fun q x => step x q) xs p.

End KeyControl.

(** ** py_onewheeltest.py *)

Module OneWheel.

Definition MOTOR_INDEX : axis := axis0.
Definition FORWARD_VELOCITY : Z := 1.
Definition BACKWARD_VELOCITY : Z := -1.

Definition set_velocity (ax : axis) (velocity : Z) : M unit :=
  try_except
    (assign_input_vel ax velocity ;;
     print ("Velocity set to: " ++ str_int velocity ++ " counts/s"))
    (fun e => print ("Failed to set velocity: " ++ str_exn e)).

Definition stop_motor (ax : axis) : M unit :=
  try_except
    (print "Stopping motor..." ;;
     set_velocity ax 0 ;;
     sleep)
    (fun e => print ("Failed to stop motor: " ++ str_exn e)).

(** [signal_handler]; [main] has bound the global [axis] by the time the
    handler is registered. *)
Definition signal_handler {A} : M A :=
  print (nl ++ "Ctrl+C detected. Exiting gracefully...") ;;
  stop_motor MOTOR_INDEX ;;
  raise (SystemExit 0).

(** What one call of [input()] meets: a line, or SIGINT while it waits;
    the end of the list stands for the end of standard input. *)
Inductive console_event : Type :=
| Line (s : string)
| CtrlC.

Definition input (prompt : string) (ev : option console_event) : M string :=
  print prompt ;;
  match ev with
  | Some (Line s) => ret s
  | Some CtrlC => signal_handler
  | None => raise EOFError
  end.

(** The [if]/[elif] chain of the main loop. *)
Definition handle_input (user_input : string) : M loop_ctl :=
  if String.eqb user_input "1" then
    set_velocity MOTOR_INDEX FORWARD_VELOCITY ;; ret Continue
  else if String.eqb user_input "2" then
    set_velocity MOTOR_INDEX BACKWARD_VELOCITY ;; ret Continue
  else if String.eqb user_input "0" then
    set_velocity MOTOR_INDEX 0 ;; ret Continue
  else if String.eqb (lower user_input) "q" then
    stop_motor MOTOR_INDEX ;;
    print "Exiting program..." ;;
    ret Break
  else
    print "Invalid input. Please enter 1, 2, 0, or q." ;; ret Continue.

(** [while True:] fed with the console events [evs]. *)
Fixpoint command_loop (evs : list console_event) : M unit :=
  match evs with
  | [] => user_input <- input "Enter command (1/2/0/q): " None ;; ret tt
  | ev :: evs' =>
      user_input <- input "Enter command (1/2/0/q): " (Some ev) ;;
      c <- handle_input user_input ;;
      match c with
      | Break => ret tt
      | Continue => command_loop evs'
      end
  end.

(** [main] from the [try] on. *)
Definition main (evs : list console_event) : M unit :=
  try_finally
    (try_except
       (command_loop evs)
       (fun e => print ("Error: " ++ str_exn e)))
    (stop_motor MOTOR_INDEX).

End OneWheel.

(** ** Start-up: [find_odrive], [setup_motor] and the head of [main] *)

Module Boot.

(** The two attributes [setup_motor] writes on an axis. *)
Inductive setting : Type := control_mode | requested_state.

(** One attempted write [axis.<setting> = value]. *)
Definition config_write : Type := (axis * setting * Z)%type.

(** What the odrive package and the board answer at start-up:
    [odrive.find_any()] raises, or returns a board with a serial number;
    [getattr(odrv, "axisN")] raises an [AttributeError] with the given
    message for an axis the board does not have. *)
Record rig : Type := mkRig {
  find_any : exn + Z;
  missing : axis -> option string
}.

(** The world, and the configuration writes attempted so far. *)
Record state : Type := mkState {
  os : world;
  config : list config_write
}.

Definition B (A : Type) : Type := state -> outcome A * state.

Definition bret {A} (a : A) : B A := fun s => (Ret a, s).

Definition braise {A} (e : exn) : B A := fun s => (Raise e, s).

Definition bbind {A C} (m : B A) (k : A -> B C) : B C :=
  fun s =>
    match m s with
    | (Ret a, s') => k a s'
    | (Raise e, s') => (Raise e, s')
    end.

(** [try: body / except Exception as e: handler(e)] *)
Definition btry_except {A} (body : B A) (handler : exn -> B A) : B A :=
  fun s =>
    match body s with
    | (Ret a, s') => (Ret a, s')
    | (Raise e, s') =>
        if isinstance_Exception e then handler e s' else (Raise e, s')
    end.

Definition lift {A} (m : M A) : B A :=
  fun s =>
    match m (os s) with
    | (r, w) => (r, mkState w (config s))
    end.

(** [sys.exit(code)] *)
Definition sys_exit {A} (code : Z) : B A := braise (SystemExit code).

Declare Scope boot_scope.
Delimit Scope boot_scope with boot.
Notation "x <- m ;; k" := (bbind m (fun x => k))
  (at level 61, m at next level, right associativity) : boot_scope.
Notation "m ;; k" := (bbind m (fun _ => k))
  (at level 61, right associativity) : boot_scope.
Local Open Scope boot_scope.

Definition AXIS_STATE_CLOSED_LOOP_CONTROL : Z := 8.

(** The ["N"] of [f"axis{motor_index}"]. *)
Definition axis_index (motor_index : axis) : string :=
  match motor_index with axis0 => "0" | axis1 => "1" end.

(** [odrive.find_any()] *)
Definition odrive_find_any (r : rig) : B Z :=
  fun s =>
    match find_any r with
    | inr serial_number => (Ret serial_number, s)
    | inl e => (Raise e, s)
    end.

(** [getattr(odrv, f"axis{motor_index}")] *)
Definition getattr_axis (r : rig) (motor_index : axis) : B axis :=
  fun s =>
    match missing r motor_index with
    | None => (Ret motor_index, s)
    | Some msg => (Raise (Exception msg), s)
    end.

(** [axis.<setting> = value]: attempted, then taken or refused by the
    device as the head of [faults] says. *)
Definition assign_config (a : axis) (x : setting) (value : Z) : B unit :=
  fun s =>
    let cfg := config s ++ [(a, x, value)] in
    match faults (os s) with
    | Some msg :: rest =>
        (Raise (Exception msg), mkState (with_faults (os s) rest) cfg)
    | None :: rest => (Ret tt, mkState (with_faults (os s) rest) cfg)
    | [] => (Ret tt, mkState (os s) cfg)
    end.

Definition find_odrive (r : rig) : B Z :=
  lift (print "Looking for ODrive...") ;;
  btry_except
    (odrv <- odrive_find_any r ;;
     lift (print ("Found ODrive: " ++ str_int odrv)) ;;
     bret odrv)
    (fun e =>
       lift (print ("Failed to find ODrive: " ++ str_exn e)) ;;
       sys_exit 1).

(** [setup_motor]; [failed] is the head of the failure message, which is
    where the two scripts differ. *)
Definition setup_motor_with (failed : axis -> string) (r : rig)
  (motor_index : axis) : B axis :=
  btry_except
    (ax <- getattr_axis r motor_index ;;
     assign_config ax control_mode 2 ;;
     assign_config ax requested_state AXIS_STATE_CLOSED_LOOP_CONTROL ;;
     lift sleep ;;
     lift (print ("Motor on axis" ++ axis_index motor_index
                  ++ " is ready for control")) ;;
     bret ax)
    (fun e =>
       lift (print (failed motor_index ++ str_exn e)) ;;
       sys_exit 1).

Fixpoint print_all (lines : list string) : B unit :=
  match lines with
  | [] => bret tt
  | line :: rest => lift (print line) ;; print_all rest
  end.

(** py_twomotortest.py *)
Module Two.

Definition setup_motor : rig -> axis -> B axis :=
  setup_motor_with
    (fun motor_index =>
       ("Failed to setup motor on axis" ++ axis_index motor_index ++ ": ")%string).

Definition banner : list string :=
  [ "ODrive Two Motor Control System";
    "------------------------------";
    "Key controls:";
    "1 - Left motor forward";
    "2 - Left motor backward";
    "3 - Right motor forward";
    "4 - Right motor backward";
    "w - Both motors forward";
    "s - Both motors backward";
    "a - Right motor forward";
    "d - Left motor forward";
    "q - Left motor backward, right motor forward";
    "e - Right motor backward, left motor forward";
    "x - Stop all motors";
    "ESC - Quit the program";
    "------------------------------" ]%string.

(** [main] up to the registration of the signal handler: the two axes
    it hands to the monitor thread and to its own [finally] block. *)
Definition main_startup (r : rig) : B (axis * axis) :=
  print_all banner ;;
  odrv <- find_odrive r ;;
  left_axis <- setup_motor r TwoMotor.LEFT_MOTOR_INDEX ;;
  right_axis <- setup_motor r TwoMotor.RIGHT_MOTOR_INDEX ;;
  bret (left_axis, right_axis).

End Two.

(** py_onewheeltest.py *)
Module One.

Definition setup_motor : rig -> axis -> B axis :=
  setup_motor_with (fun _ => "Failed to setup motor: "%string).

Definition banner : list string :=
  [ "ODrive Single Motor Control (Remote Shell Compatible)";
    "----------------------------------------------------";
    "Enter 1: Turn motor forward";
    "Enter 2: Turn motor backward";
    "Enter 0: Stop motor";
    "Enter q: Quit";
    "----------------------------------------------------" ]%string.

(** The whole of [main]: start-up, then the command loop under its
    [try]/[finally]. *)
Definition main (r : rig) (evs : list OneWheel.console_event) : B unit :=
  print_all banner ;;
  odrv <- find_odrive r ;;
  ax <- setup_motor r OneWheel.MOTOR_INDEX ;;
  lift (OneWheel.main evs).

End One.

(** The first [n] coming writes are all taken. *)
Fixpoint writes_ok (n : nat) (fs : list (option string)) : bool :=
  match n, fs with
  | O, _ => true
  | S _, [] => true
  | S m, None :: rest => writes_ok m rest
  | S _, Some _ :: _ => false
  end.

Definition found (r : rig) : bool :=
  match find_any r with inr _ => true | inl _ => false end.

Definition has_axis (r : rig) (a : axis) : bool :=
  match missing r a with None => true | Some _ => false end.

(** How a failed start-up leaves: with the exception of [find_any] when
    [except Exception] does not catch it, with [SystemExit(1)] otherwise. *)
Definition startup_failure (r : rig) : exn :=
  match find_any r with
  | inl e => if isinstance_Exception e then SystemExit 1 else e
  | inr _ => SystemExit 1
  end.

End Boot.

(** ** Observations on a run *)

Definition count_lines (line : string) (out : list string) : nat :=
  List.length (filter (String.eqb line) out).

(** The write [stop_motor] makes, and the write of a set-point. *)
Definition stop_cmd (a : axis) : command := (a, 0).
Definition set_velocity_cmd (a : axis) (v : Z) : command := (a, v).

(** Settings of a terminal in line mode with echo and signal keys. *)
Definition cooked : Termios.attrs :=
  Termios.mkAttrs 17664 5 191 35387 [3; 28; 127; 21; 4; 0; 1; 0].

(** The sampling window in which the one-byte string [c] arrives. *)
Definition typed (c : string) : tty_event :=
  match c with
  | String a EmptyString => Some a
  | _ => None
  end.


(** ** Closed forms used in the proofs *)

Definition logged (lines : list string) (w : world) : world :=
  with_stdout w (stdout w ++ lines).

(** The world after one guarded write of [v] to [a]: the attempt is on
    record, and either the set-point moved (and [ok_lines] were printed)
    or the failure was reported. *)
Definition attempted (a : axis) (v : Z) (ok_lines : list string) (w : world)
  : world :=
  let w1 := with_commands w (commands w ++ [(a, v)]) in
  match faults w with
  | Some msg :: rest =>
      logged [("Failed to set velocity: " ++ msg)%string] (with_faults w1 rest)
  | None :: rest => logged ok_lines (with_input_vel (with_faults w1 rest) a v)
  | [] => logged ok_lines (with_input_vel w1 a v)
  end.

(** What [getch_non_blocking] hands back, per variant. *)
Definition sample_two (ev : tty_event) : outcome (option string) :=
  match ev with
  | None => Ret None
  | Some c =>
      if String.eqb (String c EmptyString) CTRL_C then Raise KeyboardInterrupt
      else if String.eqb (String c EmptyString) ESC then Ret (Some "esc")
      else Ret (Some (String c EmptyString))
  end.

Definition sample_one (ev : tty_event) : outcome (option string) :=
  match ev with
  | None => Ret None
  | Some c =>
      if String.eqb (String c EmptyString) CTRL_C then Raise KeyboardInterrupt
      else Ret (Some (String c EmptyString))
  end.

(** The terminal calls of one sampling call that found the settings [old]. *)
Definition getch_ops (ev : tty_event) (old : Termios.attrs) : list Termios.op :=
  [Termios.Tcgetattr; Termios.Setraw; Termios.Select]
    ++ (match ev with Some _ => [Termios.Read] | None => [] end)
    ++ [Termios.Tcsetattr old].

(** Sampling windows with the repeats of a held key removed. *)
Definition tty_event_eqb (x y : tty_event) : bool :=
  match x, y with
  | Some a, Some b => Ascii.eqb a b
  | None, None => true
  | _, _ => false
  end.

Fixpoint squash (evs : list tty_event) : list tty_event :=
  match evs with
  | [] => []
  | ev :: rest =>
      match ev, rest with
      | Some _, ev' :: _ =>
          if tty_event_eqb ev ev' then squash rest else ev :: squash rest
      | _, _ => ev :: squash rest
      end
  end.

(** Everything but the log of terminal calls. *)
Definition forget_ops (w : world) : world := with_term_ops w [].

(** Lines by which a key press and a release show on the console of the
    two-motor script. *)
Definition presses (w : world) : nat :=
  List.length (filter (String.prefix "Command: ") (stdout w)).

Definition releases (w : world) : nat :=
  count_lines "Keys released, stopping all motors" (stdout w).

(** Console lines that are neither a key press nor a release. *)
Definition quiet (line : string) : bool :=
  negb (String.prefix "Command: " line)
  && negb (String.eqb "Keys released, stopping all motors" line).

(** What the motor-side functions may do to the world: print [quiet]
    lines, attempt writes, and nothing to the globals or the terminal. *)
Definition actuator_only (w w' : world) : Prop :=
  running w' = running w
  /\ current_key w' = current_key w
  /\ term w' = term w
  /\ term_ops w' = term_ops w
  /\ (exists lines, stdout w' = stdout w ++ lines /\ forallb quiet lines = true)
  /\ (exists cmds, commands w' = commands w ++ cmds).

(** 1 while a key is held, 0 otherwise. *)
Definition held (w : world) : nat :=
  match current_key w with Some _ => 1%nat | None => 0%nat end.

(** A computation that neither reads nor writes the log of terminal
    calls. *)
Definition oblivious {A} (m : M A) : Prop :=
  forall w ops,
    m (with_term_ops w ops) = (fst (m w), with_term_ops (snd (m w)) ops).

(** Two runs that end alike and differ at most in the terminal log. *)
Definition same_run {A} (r1 r2 : outcome A * world) : Prop :=
  fst r1 = fst r2 /\ forget_ops (snd r1) = forget_ops (snd r2).

(** ** Further notions used by the properties *)

(** A device that takes every coming write. *)
Definition healthy (w : world) : Prop :=
  Forall (fun f => f = None) (faults w).


(** How the windows alone decide the end of the two-motor monitor
    thread: the first 0x03 kills it, the first 0x1b makes it return. *)
Fixpoint two_thread_end (evs : list tty_event) : outcome thread_status :=
  match evs with
  | [] => Ret Alive
  | None :: rest => two_thread_end rest
  | Some c :: rest =>
      if Ascii.eqb c (ascii_of_nat 3) then Raise KeyboardInterrupt
      else if Ascii.eqb c (ascii_of_nat 27) then Ret Returned
      else two_thread_end rest
  end.

(** The same for the key-control monitor thread: the first 0x03 kills
    it, the first ['q'] or ['Q'] makes it return. *)
Fixpoint one_thread_end (evs : list tty_event) : outcome thread_status :=
  match evs with
  | [] => Ret Alive
  | None :: rest => one_thread_end rest
  | Some c :: rest =>
      if Ascii.eqb c (ascii_of_nat 3) then Raise KeyboardInterrupt
      else if String.eqb (lower (String c EmptyString)) "q" then Ret Returned
      else one_thread_end rest
  end.

(** How the console events alone decide the way [main] of the
    line-based script ends. *)
Fixpoint wheel_exit (evs : list OneWheel.console_event) : outcome unit :=
  match evs with
  | [] => Ret tt
  | OneWheel.CtrlC :: _ => Raise (SystemExit 0)
  | OneWheel.Line s :: rest =>
      if String.eqb (lower s) "q" then Ret tt else wheel_exit rest
  end.

(** The set-point a line asks for, if it is a motion command. *)
Definition wheel_setpoint (s : string) : option Z :=
  if String.eqb s "1" then Some OneWheel.FORWARD_VELOCITY
  else if String.eqb s "2" then Some OneWheel.BACKWARD_VELOCITY
  else if String.eqb s "0" then Some 0
  else None.

Definition wheel_track (v : Z) (s : string) : Z :=
  match wheel_setpoint s with Some x => x | None => v end.

(** What the line-based script may do to the world: write to its one
    axis and print; a healthy device stays healthy. *)
Definition wheel_only (w w' : world) : Prop :=
  running w' = running w
  /\ current_key w' = current_key w
  /\ term w' = term w
  /\ term_ops w' = term_ops w
  /\ input_vel1 w' = input_vel1 w
  /\ (exists cmds,
        commands w' = commands w ++ cmds
        /\ Forall (fun c => fst c = OneWheel.MOTOR_INDEX) cmds)
  /\ (healthy w -> healthy w').

(** The world [stop_motor] of the line-based script leaves. *)
Definition wheel_stopped (w : world) : world :=
  attempted axis0 0 ["Velocity set to: 0 counts/s"%string]
    (logged ["Stopping motor..."%string] w).

(** What start-up may do to the world: print, and use up device
    answers; no set-point write, no global, no terminal call. *)
Definition boot_frame (s s' : Boot.state) : Prop :=
  commands (Boot.os s') = commands (Boot.os s)
  /\ input_vel0 (Boot.os s') = input_vel0 (Boot.os s)
  /\ input_vel1 (Boot.os s') = input_vel1 (Boot.os s)
  /\ running (Boot.os s') = running (Boot.os s)
  /\ current_key (Boot.os s') = current_key (Boot.os s)
  /\ term (Boot.os s') = term (Boot.os s)
  /\ term_ops (Boot.os s') = term_ops (Boot.os s).

(** The two writes by which [setup_motor] configures an axis. *)
Definition setup_writes (a : axis) : list Boot.config_write :=
  [(a, Boot.control_mode, 2);
   (a, Boot.requested_state, Boot.AXIS_STATE_CLOSED_LOOP_CONTROL)].

(** * Properties *)

(** ** The monad *)

Lemma bind_ret {A B} (m : M A) (k : A -> M B) w a w' :
  m w = (Ret a, w') -> bind m k w = k a w'.
Proof. intros E. unfold bind. rewrite E. reflexivity. Qed.

Lemma bind_raise {A B} (m : M A) (k : A -> M B) w e w' :
  m w = (Raise e, w') -> bind m k w = (Raise e, w').
Proof. intros E. unfold bind. rewrite E. reflexivity. Qed.

Lemma print_eq s w : print s w = (Ret tt, logged [s] w).
Proof. reflexivity. Qed.

(** ** Guarded writes never raise *)

Lemma attempted_running a v l w : running (attempted a v l w) = running w.
Proof. unfold attempted. destruct (faults w) as [|[m|] r], a; reflexivity. Qed.

Lemma attempted_current_key a v l w :
  current_key (attempted a v l w) = current_key w.
Proof. unfold attempted. destruct (faults w) as [|[m|] r], a; reflexivity. Qed.

Lemma attempted_term a v l w : term (attempted a v l w) = term w.
Proof. unfold attempted. destruct (faults w) as [|[m|] r], a; reflexivity. Qed.

Lemma attempted_term_ops a v l w : term_ops (attempted a v l w) = term_ops w.
Proof. unfold attempted. destruct (faults w) as [|[m|] r], a; reflexivity. Qed.

Lemma attempted_commands a v l w :
  commands (attempted a v l w) = commands w ++ [(a, v)].
Proof. unfold attempted. destruct (faults w) as [|[m|] r], a; reflexivity. Qed.

Lemma attempted_other_axis a b v l w :
  axis_eqb a b = false -> input_vel b (attempted a v l w) = input_vel b w.
Proof.
  unfold attempted. intros H.
  destruct (faults w) as [|[m|] r], a, b; try discriminate H; reflexivity.
Qed.

Lemma logged_nil w : logged [] w = w.
Proof. destruct w. unfold logged, with_stdout. simpl. now rewrite app_nil_r. Qed.

Lemma two_set_motor_velocity_eq a v w :
  TwoMotor.set_motor_velocity a v w = (Ret tt, attempted a v [] w).
Proof.
  unfold TwoMotor.set_motor_velocity, try_except, assign_input_vel, attempted.
  destruct (faults w) as [|[m|] r]; simpl; try reflexivity;
    now rewrite logged_nil.
Qed.

Lemma two_stop_motor_eq a w :
  TwoMotor.stop_motor a w = (Ret tt, attempted a 0 [] w).
Proof.
  unfold TwoMotor.stop_motor, try_except.
  now rewrite two_set_motor_velocity_eq.
Qed.

Lemma two_stop_all_motors_eq l r w :
  TwoMotor.stop_all_motors l r w
  = (Ret tt, logged ["All motors stopped"] (attempted r 0 [] (attempted l 0 [] w))).
Proof.
  unfold TwoMotor.stop_all_motors.
  rewrite (bind_ret _ _ _ _ _ (two_stop_motor_eq l w)).
  rewrite (bind_ret _ _ _ _ _ (two_stop_motor_eq r _)).
  reflexivity.
Qed.

Lemma one_set_velocity_eq a v w :
  OneWheel.set_velocity a v w
  = (Ret tt, attempted a v [("Velocity set to: " ++ str_int v ++ " counts/s")%string] w).
Proof.
  unfold OneWheel.set_velocity, try_except, bind, assign_input_vel, attempted.
  destruct (faults w) as [|[m|] r]; reflexivity.
Qed.

Lemma one_stop_motor_eq a w :
  OneWheel.stop_motor a w
  = (Ret tt, attempted a 0 ["Velocity set to: 0 counts/s"]
               (logged ["Stopping motor..."] w)).
Proof.
  unfold OneWheel.stop_motor, try_except.
  rewrite (bind_ret _ _ _ _ _ (print_eq _ w)).
  rewrite (bind_ret _ _ _ _ _ (one_set_velocity_eq a 0 _)).
  reflexivity.
Qed.

(** ** Sampling *)

Lemma two_getch_eq ev w :
  TwoMotor.getch_non_blocking ev w
  = (sample_two ev, with_term_ops w (term_ops w ++ getch_ops ev (term w))).
Proof.
  destruct w as [out tm ops v0 v1 cmds fs r ck].
  destruct ev as [c|]; unfold TwoMotor.getch_non_blocking, sample_two.
  - unfold bind, try_finally, tcgetattr, setraw, select, stdin_read1,
      tcsetattr, term_call, modify, gets, ret, raise, bind; simpl.
    repeat match goal with
           | |- context [Ascii.eqb ?a ?b] => destruct (Ascii.eqb a b)
           end;
      unfold with_term_ops, getch_ops; simpl;
      repeat rewrite <- app_assoc; reflexivity.
  - unfold with_term_ops, getch_ops; simpl.
    cbv [bind try_finally tcgetattr setraw select tcsetattr term_call modify
         gets ret with_term_ops with_term term term_ops stdout input_vel0
         input_vel1 commands faults running current_key].
    repeat rewrite <- app_assoc. reflexivity.
Qed.

Lemma one_getch_eq ev w :
  KeyControl.getch_non_blocking ev w
  = (sample_one ev, with_term_ops w (term_ops w ++ getch_ops ev (term w))).
Proof.
  destruct w as [out tm ops v0 v1 cmds fs r ck].
  destruct ev as [c|]; unfold KeyControl.getch_non_blocking, sample_one.
  - unfold bind, try_finally, tcgetattr, setraw, select, stdin_read1,
      tcsetattr, term_call, modify, gets, ret, raise, bind; simpl.
    repeat match goal with
           | |- context [Ascii.eqb ?a ?b] => destruct (Ascii.eqb a b)
           end;
      unfold with_term_ops, getch_ops; simpl;
      repeat rewrite <- app_assoc; reflexivity.
  - unfold with_term_ops, getch_ops; simpl.
    cbv [bind try_finally tcgetattr setraw select tcsetattr term_call modify
         gets ret with_term_ops with_term term term_ops stdout input_vel0
         input_vel1 commands faults running current_key].
    repeat rewrite <- app_assoc. reflexivity.
Qed.

(** C6: every call of the sampler, on each of its three exit paths
    (a character, [None] on timeout, [KeyboardInterrupt] on byte 0x03),
    leaves the terminal settings as it found them; raw mode is entered
    once and the settings read at entry are written back once. *)
Theorem getch_restores_terminal (ev : tty_event) (w : world) :
  let two := TwoMotor.getch_non_blocking ev w in
  let one := KeyControl.getch_non_blocking ev w in
  term (snd two) = term w
  /\ term (snd one) = term w
  /\ match ev with
     | None => fst two = Ret None /\ fst one = Ret None
     | Some c =>
         if Ascii.eqb c (ascii_of_nat 3)
         then fst two = Raise KeyboardInterrupt
              /\ fst one = Raise KeyboardInterrupt
         else (exists k, fst two = Ret (Some k))
              /\ fst one = Ret (Some (String c EmptyString))
     end
  /\ exists ops,
       term_ops (snd two) = term_ops w ++ ops
       /\ term_ops (snd one) = term_ops w ++ ops
       /\ filter Termios.is_setraw ops = [Termios.Setraw]
       /\ filter Termios.is_tcsetattr ops = [Termios.Tcsetattr (term w)].
Proof.
  cbv zeta. rewrite two_getch_eq, one_getch_eq. simpl.
  repeat split.
  - destruct ev as [c|]; simpl; [|now split].
    destruct (Ascii.eqb c (ascii_of_nat 3)); [now split|].
    split; [|reflexivity].
    destruct (Ascii.eqb c (ascii_of_nat 27)); eexists; reflexivity.
  - exists (getch_ops ev (term w)).
    destruct ev; repeat split; reflexivity.
Qed.

(** ** The dispatcher of the two-motor script *)

Lemma actuator_only_refl w : actuator_only w w.
Proof.
  repeat split; try (exists []; split; [now rewrite app_nil_r|reflexivity]).
  exists []. now rewrite app_nil_r.
Qed.

Lemma actuator_only_trans w1 w2 w3 :
  actuator_only w1 w2 -> actuator_only w2 w3 -> actuator_only w1 w3.
Proof.
  intros (R1 & K1 & T1 & O1 & (l1 & L1 & Q1) & (c1 & C1))
         (R2 & K2 & T2 & O2 & (l2 & L2 & Q2) & (c2 & C2)).
  repeat split; try congruence.
  - exists (l1 ++ l2). split.
    + rewrite L2, L1. now rewrite app_assoc.
    + rewrite forallb_app, Q1, Q2. reflexivity.
  - exists (c1 ++ c2). rewrite C2, C1. now rewrite app_assoc.
Qed.

Lemma attempted_actuator_only a v w : actuator_only w (attempted a v [] w).
Proof.
  unfold attempted.
  destruct (faults w) as [|[m|] r], a; repeat split;
    try (exists [(axis0, v)]; reflexivity);
    try (exists [(axis1, v)]; reflexivity);
    try (exists []; split; reflexivity);
    eexists; split; reflexivity.
Qed.

Lemma logged_actuator_only lines w :
  forallb quiet lines = true -> actuator_only w (logged lines w).
Proof.
  intros Q. repeat split.
  - exists lines. now split.
  - exists []. simpl. now rewrite app_nil_r.
Qed.

Lemma stop_all_actuator_only l r w :
  actuator_only w (snd (TwoMotor.stop_all_motors l r w)).
Proof.
  rewrite two_stop_all_motors_eq. simpl.
  eapply actuator_only_trans; [apply attempted_actuator_only|].
  eapply actuator_only_trans; [apply attempted_actuator_only|].
  now apply logged_actuator_only.
Qed.

Ltac run_motor :=
  first
    [ rewrite (bind_ret _ _ _ _ _ (two_set_motor_velocity_eq _ _ _))
    | rewrite (bind_ret _ _ _ _ _ (two_stop_all_motors_eq _ _ _))
    | rewrite (bind_ret _ _ _ _ _ (print_eq _ _)) ].

Ltac chain_actuator_only :=
  lazymatch goal with
  | |- actuator_only ?x ?x => apply actuator_only_refl
  | |- actuator_only _ (attempted _ _ [] ?z) =>
      apply (actuator_only_trans _ z);
      [chain_actuator_only | apply attempted_actuator_only]
  | |- actuator_only _ (logged _ ?z) =>
      apply (actuator_only_trans _ z);
      [chain_actuator_only | apply logged_actuator_only; reflexivity]
  end.

(** The dispatcher prints its one [Command:] line, then only drives the
    motors; it answers [False] for ["esc"] and [True] for anything else. *)
Lemma handle_motor_control_spec k l r w :
  exists w',
    TwoMotor.handle_motor_control k l r w
    = (Ret (negb (String.eqb k "esc")), w')
    /\ actuator_only
         (logged [("Command: " ++ dict_get TwoMotor.key_name k "Unknown key")%string] w)
         w'.
Proof.
  unfold TwoMotor.handle_motor_control.
  rewrite (bind_ret _ _ _ _ _ (print_eq _ w)).
  repeat match goal with
         | |- context [if String.eqb k ?s then _ else _] =>
             let E := fresh "E" in
             destruct (String.eqb k s) eqn:E;
             [apply String.eqb_eq in E; subst k; repeat run_motor;
              eexists; split; [reflexivity|chain_actuator_only]|]
         end.
  eexists; split; [reflexivity|apply actuator_only_refl].
Qed.

(** ** The locked section of the two-motor monitor *)

Lemma gets_eq {A} (f : world -> A) w : gets f w = (Ret (f w), w).
Proof. reflexivity. Qed.

Lemma modify_eq f w : modify f w = (Ret tt, f w).
Proof. reflexivity. Qed.

Lemma two_locked_same k l r w :
  current_key w = Some k ->
  TwoMotor.locked_section (Some k) l r w = (Ret Continue, w).
Proof.
  intros H. unfold TwoMotor.locked_section.
  rewrite (bind_ret _ _ _ _ _ (gets_eq _ w)), H. simpl.
  now rewrite String.eqb_refl.
Qed.

Lemma two_locked_press k l r w :
  opt_str_eqb (Some k) (current_key w) = false ->
  exists w',
    actuator_only
      (logged [("Command: " ++ dict_get TwoMotor.key_name k "Unknown key")%string]
              (with_current_key w (Some k)))
      w'
    /\ TwoMotor.locked_section (Some k) l r w
       = if String.eqb k "esc" then (Ret Break, with_running w' false)
         else (Ret Continue, w').
Proof.
  intros H. unfold TwoMotor.locked_section.
  rewrite (bind_ret _ _ _ _ _ (gets_eq _ w)), H. cbn [negb].
  rewrite (bind_ret _ _ _ _ _ (modify_eq _ w)).
  destruct (handle_motor_control_spec k l r (with_current_key w (Some k)))
    as (w' & E & A).
  rewrite (bind_ret _ _ _ _ _ E).
  exists w'. split; [exact A|].
  destruct (String.eqb k "esc"); reflexivity.
Qed.

Lemma two_locked_release k l r w :
  current_key w = Some k ->
  TwoMotor.locked_section None l r w
  = (Ret Continue,
     with_current_key
       (logged ["All motors stopped"%string]
          (attempted r 0 []
             (attempted l 0 []
                (logged ["Keys released, stopping all motors"%string] w))))
       None).
Proof.
  intros H. unfold TwoMotor.locked_section.
  rewrite (bind_ret _ _ _ _ _ (gets_eq _ w)), H.
  rewrite (bind_ret _ _ _ _ _ (print_eq _ w)).
  rewrite (bind_ret _ _ _ _ _ (two_stop_all_motors_eq _ _ _)).
  reflexivity.
Qed.

Lemma two_locked_idle l r w :
  current_key w = None ->
  TwoMotor.locked_section None l r w = (Ret Continue, w).
Proof.
  intros H. unfold TwoMotor.locked_section.
  now rewrite (bind_ret _ _ _ _ _ (gets_eq _ w)), H.
Qed.

Lemma two_iteration_eq ev l r w :
  TwoMotor.monitor_iteration ev l r w
  = match sample_two ev with
    | Raise e => (Raise e, with_term_ops w (term_ops w ++ getch_ops ev (term w)))
    | Ret key =>
        TwoMotor.locked_section key l r
          (with_term_ops w (term_ops w ++ getch_ops ev (term w)))
    end.
Proof.
  unfold TwoMotor.monitor_iteration.
  destruct (sample_two ev) as [key|e] eqn:S.
  - rewrite (bind_ret _ _ _ key _
               (eq_trans (two_getch_eq ev w) (f_equal (fun o => (o, _)) S))).
    unfold bind.
    destruct (TwoMotor.locked_section key l r _) as [[[|]|e] w']; reflexivity.
  - now rewrite (bind_raise _ _ _ e _
                   (eq_trans (two_getch_eq ev w) (f_equal (fun o => (o, _)) S))).
Qed.

Create Rewrite HintDb world_proj.
#[local] Hint Rewrite attempted_running attempted_current_key attempted_term
  attempted_term_ops attempted_commands : world_proj.

(** Projections of a world after [logged] or one of the setters. *)

Lemma stdout_logged x w : stdout (logged x w) = stdout w ++ x.
Proof. reflexivity. Qed.

Lemma term_logged x w : term (logged x w) = term w.
Proof. reflexivity. Qed.

Lemma term_ops_logged x w : term_ops (logged x w) = term_ops w.
Proof. reflexivity. Qed.

Lemma input_vel0_logged x w : input_vel0 (logged x w) = input_vel0 w.
Proof. reflexivity. Qed.

Lemma input_vel1_logged x w : input_vel1 (logged x w) = input_vel1 w.
Proof. reflexivity. Qed.

Lemma commands_logged x w : commands (logged x w) = commands w.
Proof. reflexivity. Qed.

Lemma faults_logged x w : faults (logged x w) = faults w.
Proof. reflexivity. Qed.

Lemma running_logged x w : running (logged x w) = running w.
Proof. reflexivity. Qed.

Lemma current_key_logged x w : current_key (logged x w) = current_key w.
Proof. reflexivity. Qed.

Lemma stdout_with_term_ops x w : stdout (with_term_ops w x) = stdout w.
Proof. reflexivity. Qed.

Lemma term_with_term_ops x w : term (with_term_ops w x) = term w.
Proof. reflexivity. Qed.

Lemma term_ops_with_term_ops x w : term_ops (with_term_ops w x) = x.
Proof. reflexivity. Qed.

Lemma input_vel0_with_term_ops x w : input_vel0 (with_term_ops w x) = input_vel0 w.
Proof. reflexivity. Qed.

Lemma input_vel1_with_term_ops x w : input_vel1 (with_term_ops w x) = input_vel1 w.
Proof. reflexivity. Qed.

Lemma commands_with_term_ops x w : commands (with_term_ops w x) = commands w.
Proof. reflexivity. Qed.

Lemma faults_with_term_ops x w : faults (with_term_ops w x) = faults w.
Proof. reflexivity. Qed.

Lemma running_with_term_ops x w : running (with_term_ops w x) = running w.
Proof. reflexivity. Qed.

Lemma current_key_with_term_ops x w : current_key (with_term_ops w x) = current_key w.
Proof. reflexivity. Qed.

Lemma stdout_with_current_key x w : stdout (with_current_key w x) = stdout w.
Proof. reflexivity. Qed.

Lemma term_with_current_key x w : term (with_current_key w x) = term w.
Proof. reflexivity. Qed.

Lemma term_ops_with_current_key x w : term_ops (with_current_key w x) = term_ops w.
Proof. reflexivity. Qed.

Lemma input_vel0_with_current_key x w : input_vel0 (with_current_key w x) = input_vel0 w.
Proof. reflexivity. Qed.

Lemma input_vel1_with_current_key x w : input_vel1 (with_current_key w x) = input_vel1 w.
Proof. reflexivity. Qed.

Lemma commands_with_current_key x w : commands (with_current_key w x) = commands w.
Proof. reflexivity. Qed.

Lemma faults_with_current_key x w : faults (with_current_key w x) = faults w.
Proof. reflexivity. Qed.

Lemma running_with_current_key x w : running (with_current_key w x) = running w.
Proof. reflexivity. Qed.

Lemma current_key_with_current_key x w : current_key (with_current_key w x) = x.
Proof. reflexivity. Qed.

Lemma stdout_with_running x w : stdout (with_running w x) = stdout w.
Proof. reflexivity. Qed.

Lemma term_with_running x w : term (with_running w x) = term w.
Proof. reflexivity. Qed.

Lemma term_ops_with_running x w : term_ops (with_running w x) = term_ops w.
Proof. reflexivity. Qed.

Lemma input_vel0_with_running x w : input_vel0 (with_running w x) = input_vel0 w.
Proof. reflexivity. Qed.

Lemma input_vel1_with_running x w : input_vel1 (with_running w x) = input_vel1 w.
Proof. reflexivity. Qed.

Lemma commands_with_running x w : commands (with_running w x) = commands w.
Proof. reflexivity. Qed.

Lemma faults_with_running x w : faults (with_running w x) = faults w.
Proof. reflexivity. Qed.

Lemma running_with_running x w : running (with_running w x) = x.
Proof. reflexivity. Qed.

Lemma current_key_with_running x w : current_key (with_running w x) = current_key w.
Proof. reflexivity. Qed.

#[local] Hint Rewrite
  stdout_logged term_logged term_ops_logged
  input_vel0_logged input_vel1_logged commands_logged
  faults_logged running_logged current_key_logged
  stdout_with_term_ops term_with_term_ops term_ops_with_term_ops
  input_vel0_with_term_ops input_vel1_with_term_ops commands_with_term_ops
  faults_with_term_ops running_with_term_ops current_key_with_term_ops
  stdout_with_current_key term_with_current_key term_ops_with_current_key
  input_vel0_with_current_key input_vel1_with_current_key commands_with_current_key
  faults_with_current_key running_with_current_key current_key_with_current_key
  stdout_with_running term_with_running term_ops_with_running
  input_vel0_with_running input_vel1_with_running commands_with_running
  faults_with_running running_with_running current_key_with_running
  : world_proj.


Ltac proj := autorewrite with world_proj.

(** Comparisons and dict lookups on string literals, decided by evaluation. *)
Ltac decide_literals :=
  repeat match goal with
         | |- context [String.eqb ?a ?b] =>
             let v := eval vm_compute in (String.eqb a b) in
             change (String.eqb a b) with v
         | |- context [dict_get ?d ?k ?x] =>
             let v := eval vm_compute in (dict_get d k x) in
             change (dict_get d k x) with v
         end;
  cbv iota.

Ltac dispatch_literal :=
  unfold TwoMotor.handle_motor_control;
  rewrite (bind_ret _ _ _ _ _ (print_eq _ _));
  decide_literals; repeat run_motor; reflexivity.

Lemma two_dispatch_1 l r w :
  TwoMotor.handle_motor_control "1" l r w
  = (Ret true, attempted l 1 [] (logged ["Command: Left motor forward"%string] w)).
Proof. dispatch_literal. Qed.

Lemma two_dispatch_2 l r w :
  TwoMotor.handle_motor_control "2" l r w
  = (Ret true, attempted l (-1) [] (logged ["Command: Left motor backward"%string] w)).
Proof. dispatch_literal. Qed.

Lemma two_dispatch_3 l r w :
  TwoMotor.handle_motor_control "3" l r w
  = (Ret true, attempted r 1 [] (logged ["Command: Right motor forward"%string] w)).
Proof. dispatch_literal. Qed.

Lemma two_dispatch_4 l r w :
  TwoMotor.handle_motor_control "4" l r w
  = (Ret true, attempted r (-1) [] (logged ["Command: Right motor backward"%string] w)).
Proof. dispatch_literal. Qed.

Lemma two_dispatch_w l r w :
  TwoMotor.handle_motor_control "w" l r w
  = (Ret true,
     attempted r 1 []
       (attempted l 1 [] (logged ["Command: Both motors forward"%string] w))).
Proof. dispatch_literal. Qed.

Lemma two_dispatch_esc l r w :
  TwoMotor.handle_motor_control "esc" l r w
  = (Ret false, logged ["Command: Quit program"%string] w).
Proof. dispatch_literal. Qed.

(** A press: the sampled key differs from the held one. *)
Lemma two_locked_new k l r w :
  opt_str_eqb (Some k) (current_key w) = false ->
  TwoMotor.locked_section (Some k) l r w
  = match TwoMotor.handle_motor_control k l r (with_current_key w (Some k)) with
    | (Ret true, w') => (Ret Continue, w')
    | (Ret false, w') => (Ret Break, with_running w' false)
    | (Raise e, w') => (Raise e, w')
    end.
Proof.
  intros H. unfold TwoMotor.locked_section.
  rewrite (bind_ret _ _ _ _ _ (gets_eq _ w)), H. cbn [negb].
  rewrite (bind_ret _ _ _ _ _ (modify_eq _ w)).
  unfold bind at 1.
  destruct (TwoMotor.handle_motor_control k l r _) as [[[|]|e] w']; reflexivity.
Qed.

(** While running, the thread takes the next window. *)
Lemma two_thread_cons l r ev evs w :
  running w = true ->
  TwoMotor.key_monitor_thread l r (ev :: evs) w
  = match TwoMotor.monitor_iteration ev l r w with
    | (Ret Continue, w') => TwoMotor.key_monitor_thread l r evs w'
    | (Ret Break, w') => (Ret Returned, w')
    | (Raise e, w') => (Raise e, w')
    end.
Proof.
  intros H. cbn [TwoMotor.key_monitor_thread].
  rewrite (bind_ret _ _ _ _ _ (gets_eq _ w)), H.
  unfold bind at 1.
  destruct (TwoMotor.monitor_iteration ev l r w) as [[[|]|e] w']; reflexivity.
Qed.

Lemma two_thread_nil l r w :
  TwoMotor.key_monitor_thread l r [] w
  = (Ret (if running w then Alive else Returned), w).
Proof.
  cbn [TwoMotor.key_monitor_thread].
  rewrite (bind_ret _ _ _ _ _ (gets_eq _ w)).
  destruct (running w); reflexivity.
Qed.

Lemma two_thread_stopped l r evs w :
  running w = false ->
  TwoMotor.key_monitor_thread l r evs w = (Ret Returned, w).
Proof.
  intros H. destruct evs; cbn [TwoMotor.key_monitor_thread];
    now rewrite (bind_ret _ _ _ _ _ (gets_eq _ w)), H.
Qed.

Lemma two_thread_nil_alive l r w :
  running w = true -> TwoMotor.key_monitor_thread l r [] w = (Ret Alive, w).
Proof. intros H. now rewrite two_thread_nil, H. Qed.

Lemma two_iteration_key ev key l r w :
  sample_two ev = Ret key ->
  TwoMotor.monitor_iteration ev l r w
  = TwoMotor.locked_section key l r
      (with_term_ops w (term_ops w ++ getch_ops ev (term w))).
Proof. intros S. now rewrite two_iteration_eq, S. Qed.

Lemma two_thread_continue l r ev evs w w' :
  running w = true ->
  TwoMotor.monitor_iteration ev l r w = (Ret Continue, w') ->
  TwoMotor.key_monitor_thread l r (ev :: evs) w
  = TwoMotor.key_monitor_thread l r evs w'.
Proof. intros H E. now rewrite two_thread_cons, E. Qed.

(** C7: in the two-motor script, a window that delivers ['w'] followed by
    an empty window, starting with no key held, sends exactly
    setVelocity(left, +1), setVelocity(right, +1), stop(left),
    stop(right), in this order (whatever the device answers). *)
Theorem scenario_w_then_release (w : world) :
  running w = true ->
  current_key w = None ->
  exists w',
    TwoMotor.key_monitor_thread
      TwoMotor.LEFT_MOTOR_INDEX TwoMotor.RIGHT_MOTOR_INDEX
      [typed "w"; None] w
    = (Ret Alive, w')
    /\ commands w'
       = commands w
         ++ [set_velocity_cmd TwoMotor.LEFT_MOTOR_INDEX 1;
             set_velocity_cmd TwoMotor.RIGHT_MOTOR_INDEX 1;
             stop_cmd TwoMotor.LEFT_MOTOR_INDEX;
             stop_cmd TwoMotor.RIGHT_MOTOR_INDEX]
    /\ current_key w' = None.
Proof.
  intros R K. eexists. split.
  - erewrite two_thread_continue; [|exact R|].
    2:{ rewrite (two_iteration_key _ (Some "w"%string)) by reflexivity.
        rewrite two_locked_new by (proj; now rewrite K).
        now rewrite two_dispatch_w. }
    erewrite two_thread_continue; [|proj; exact R|].
    2:{ rewrite (two_iteration_key _ None) by reflexivity.
        apply (two_locked_release "w"). proj. reflexivity. }
    apply two_thread_nil_alive. proj. exact R.
  - split; [|reflexivity]. proj.
    repeat rewrite <- app_assoc. reflexivity.
Qed.

Lemma scenario_w_then_release_witness :
  exists w',
    TwoMotor.key_monitor_thread axis0 axis1 [typed "w"; None]
      (world0 cooked [Some "usb timeout"%string])
    = (Ret Alive, w')
    /\ commands w' = [(axis0, 1); (axis1, 1); (axis0, 0); (axis1, 0)]
    /\ current_key w' = None.
Proof.
  apply (scenario_w_then_release (world0 cooked [Some "usb timeout"%string]));
    reflexivity.
Defined.

Lemma logged_input_vel b lines w : input_vel b (logged lines w) = input_vel b w.
Proof. destruct b; reflexivity. Qed.

Lemma with_current_key_input_vel b k w :
  input_vel b (with_current_key w k) = input_vel b w.
Proof. destruct b; reflexivity. Qed.

Lemma with_term_ops_input_vel b o w :
  input_vel b (with_term_ops w o) = input_vel b w.
Proof. destruct b; reflexivity. Qed.

(** C10: each of the keys ['1'], ['2'], ['3'], ['4'] of the two-motor
    dispatcher writes to its own axis only and leaves the set-point of
    the other axis as it was; a ['3'] sampled while ['1'] is held sends
    the one command setVelocity(right, +1), no stop, and the left
    set-point stays what the ['1'] made it. *)
Theorem single_axis_key_leaves_other_axis (w : world) :
  let L := TwoMotor.LEFT_MOTOR_INDEX in
  let R := TwoMotor.RIGHT_MOTOR_INDEX in
  let after k := snd (TwoMotor.handle_motor_control k L R w) in
  (commands (after "1"%string) = commands w ++ [(L, 1)]
   /\ input_vel R (after "1"%string) = input_vel R w)
  /\ (commands (after "2"%string) = commands w ++ [(L, -1)]
      /\ input_vel R (after "2"%string) = input_vel R w)
  /\ (commands (after "3"%string) = commands w ++ [(R, 1)]
      /\ input_vel L (after "3"%string) = input_vel L w)
  /\ (commands (after "4"%string) = commands w ++ [(R, -1)]
      /\ input_vel L (after "4"%string) = input_vel L w)
  /\ (running w = true ->
      current_key w = Some "1"%string ->
      exists w',
        TwoMotor.key_monitor_thread L R [typed "3"] w = (Ret Alive, w')
        /\ commands w' = commands w ++ [(R, 1)]
        /\ input_vel L w' = input_vel L w
        /\ current_key w' = Some "3"%string).
Proof.
  intros L R after. subst after. cbv beta.
  rewrite two_dispatch_1, two_dispatch_2, two_dispatch_3, two_dispatch_4.
  cbn [snd].
  repeat rewrite attempted_other_axis by reflexivity.
  repeat rewrite logged_input_vel. proj.
  repeat (split; [split; reflexivity|]).
  intros Run Held. eexists. split.
  - erewrite two_thread_continue; [|exact Run|].
    2:{ rewrite (two_iteration_key _ (Some "3"%string)) by reflexivity.
        rewrite two_locked_new by (proj; now rewrite Held).
        now rewrite two_dispatch_3. }
    apply two_thread_nil_alive. proj. exact Run.
  - rewrite attempted_other_axis by reflexivity.
    rewrite logged_input_vel, with_current_key_input_vel,
      with_term_ops_input_vel.
    proj. repeat split; reflexivity.
Qed.

Lemma single_axis_key_leaves_other_axis_witness :
  let w := snd (TwoMotor.key_monitor_thread axis0 axis1 [typed "1"]
                  (world0 cooked [])) in
  (running w = true /\ current_key w = Some "1"%string /\ input_vel0 w = 1)
  /\ exists w',
       TwoMotor.key_monitor_thread axis0 axis1 [typed "3"] w = (Ret Alive, w')
       /\ commands w' = commands w ++ [(axis1, 1)]
       /\ input_vel axis0 w' = input_vel axis0 w
       /\ current_key w' = Some "3"%string.
Proof.
  split; [repeat split; reflexivity|].
  apply (single_axis_key_leaves_other_axis
           (snd (TwoMotor.key_monitor_thread axis0 axis1 [typed "1"]
                   (world0 cooked []))));
    reflexivity.
Defined.

(** ** The interrupt byte *)

Lemma one_iteration_eq ev w :
  KeyControl.monitor_iteration ev w
  = match sample_one ev with
    | Raise e => (Raise e, with_term_ops w (term_ops w ++ getch_ops ev (term w)))
    | Ret key =>
        KeyControl.locked_section key
          (with_term_ops w (term_ops w ++ getch_ops ev (term w)))
    end.
Proof.
  unfold KeyControl.monitor_iteration.
  destruct (sample_one ev) as [key|e] eqn:S.
  - rewrite (bind_ret _ _ _ key _
               (eq_trans (one_getch_eq ev w) (f_equal (fun o => (o, _)) S))).
    unfold bind, sleep, ret.
    destruct (KeyControl.locked_section key _) as [[[]|e] w']; reflexivity.
  - now rewrite (bind_raise _ _ _ e _
                   (eq_trans (one_getch_eq ev w) (f_equal (fun o => (o, _)) S))).
Qed.

Lemma two_stranded xs p e :
  main_thread p = Waiting ->
  monitor p = Died e ->
  running (mem p) = true ->
  Forall (fun x => x <> SIGINT) xs ->
  TwoMotor.run xs p = p.
Proof.
  intros Hm Hd Hr. induction 1 as [|x xs Hx _ IH]; [reflexivity|].
  unfold TwoMotor.run in *. cbn [fold_left].
  replace (TwoMotor.step x p) with p; [exact IH|].
  unfold TwoMotor.step. rewrite Hm, Hd, Hr.
  destruct x; try reflexivity. now elim Hx.
Qed.

Lemma one_stranded xs p e :
  main_thread p = Waiting ->
  monitor p = Died e ->
  running (mem p) = true ->
  Forall (fun x => x <> SIGINT) xs ->
  KeyControl.run xs p = p.
Proof.
  intros Hm Hd Hr. induction 1 as [|x xs Hx _ IH]; [reflexivity|].
  unfold KeyControl.run in *. cbn [fold_left].
  replace (KeyControl.step x p) with p; [exact IH|].
  unfold KeyControl.step. rewrite Hm, Hd, Hr.
  destruct x; try reflexivity. now elim Hx.
Qed.

(** C1 (what the code does instead): when the sampler reads byte 0x03
    the [KeyboardInterrupt] ends the monitor thread only.  [running]
    stays [True], so the main thread stays in its wait and its [finally]
    block never sends a stop: whatever follows, short of a SIGINT, the
    process sits in the same state, both set-points as they were. *)
Theorem interrupt_byte_strands_process (p : process) (xs : list stimulus) :
  main_thread p = Waiting ->
  monitor p = Alive ->
  running (mem p) = true ->
  Forall (fun x => x <> SIGINT) xs ->
  let two := TwoMotor.run (Tty (typed CTRL_C) :: xs) p in
  let one := KeyControl.run (Tty (typed CTRL_C) :: xs) p in
  (monitor two = Died KeyboardInterrupt
   /\ main_thread two = Waiting
   /\ running (mem two) = true
   /\ commands (mem two) = commands (mem p)
   /\ input_vel0 (mem two) = input_vel0 (mem p)
   /\ input_vel1 (mem two) = input_vel1 (mem p))
  /\ (monitor one = Died KeyboardInterrupt
      /\ main_thread one = Waiting
      /\ running (mem one) = true).
Proof.
  intros Hm Ha Hr Hxs two one. subst two one.
  unfold TwoMotor.run, KeyControl.run. cbn [fold_left].
  fold (TwoMotor.run xs (TwoMotor.step (Tty (typed CTRL_C)) p)).
  fold (KeyControl.run xs (KeyControl.step (Tty (typed CTRL_C)) p)).
  assert (E2 : TwoMotor.step (Tty (typed CTRL_C)) p
               = mkProcess (with_term_ops (mem p)
                              (term_ops (mem p)
                               ++ getch_ops (typed CTRL_C) (term (mem p))))
                           (Died KeyboardInterrupt) Waiting).
  { unfold TwoMotor.step. rewrite Hm, Ha, Hr, two_iteration_eq. reflexivity. }
  assert (E1 : KeyControl.step (Tty (typed CTRL_C)) p
               = mkProcess (with_term_ops (mem p)
                              (term_ops (mem p)
                               ++ getch_ops (typed CTRL_C) (term (mem p))))
                           (Died KeyboardInterrupt) Waiting).
  { unfold KeyControl.step. rewrite Hm, Ha, Hr, one_iteration_eq. reflexivity. }
  rewrite E2, E1.
  rewrite (two_stranded xs _ KeyboardInterrupt), (one_stranded xs _ KeyboardInterrupt);
    try assumption; try reflexivity.
  repeat split; assumption.
Qed.

Lemma interrupt_byte_strands_process_witness :
  let p := TwoMotor.run [Tty (typed "1")] (process0 cooked []) in
  let q := TwoMotor.run [Tty (typed CTRL_C); Tick; Tty None; Tick] p in
  input_vel0 (mem p) = 1
  /\ monitor q = Died KeyboardInterrupt
  /\ main_thread q = Waiting
  /\ running (mem q) = true
  /\ commands (mem q) = [(axis0, 1)]
  /\ input_vel0 (mem q) = 1.
Proof.
  split; [reflexivity|].
  assert (F : Forall (fun x => x <> SIGINT) [Tick; Tty None; Tick])
    by (repeat constructor; discriminate).
  destruct (interrupt_byte_strands_process
              (TwoMotor.run [Tty (typed "1")] (process0 cooked []))
              [Tick; Tty None; Tick] eq_refl eq_refl eq_refl F)
    as ((A & B & C & D & E & _) & _).
  repeat split; assumption.
Defined.

(** ** The key-control script and the line-based script *)

Lemma lower_is_q k : lower k = "q"%string <-> k = "q"%string \/ k = "Q"%string.
Proof.
  split.
  - destruct k as [|c [|d k']]; cbn [lower]; try discriminate.
    intros H. injection H as H.
    destruct c as [[] [] [] [] [] [] [] []]; vm_compute in H;
      try discriminate H; auto.
  - intros [-> | ->]; reflexivity.
Qed.

Lemma one_locked_same k w :
  current_key w = Some k ->
  KeyControl.locked_section (Some k) w = (Ret tt, w).
Proof.
  intros H. unfold KeyControl.locked_section.
  rewrite (bind_ret _ _ _ _ _ (gets_eq _ w)), H. simpl.
  now rewrite String.eqb_refl.
Qed.

Lemma one_locked_new k w :
  opt_str_eqb (Some k) (current_key w) = false ->
  KeyControl.locked_section (Some k) w
  = (Ret tt,
     let w1 := with_current_key w (Some k) in
     if String.eqb k "1" then logged ["ACTION: Moving forward"%string] w1
     else if String.eqb k "2" then logged ["ACTION: Moving backward"%string] w1
     else if String.eqb (lower k) "q" then
       with_running (logged [(nl ++ "Quitting program...")%string] w1) false
     else logged ["ACTION: Stopping (other key pressed)"%string] w1).
Proof.
  intros H. unfold KeyControl.locked_section.
  rewrite (bind_ret _ _ _ _ _ (gets_eq _ w)), H. cbn [negb].
  rewrite (bind_ret _ _ _ _ _ (modify_eq _ w)). cbv zeta.
  destruct (String.eqb k "1"); [reflexivity|].
  destruct (String.eqb k "2"); [reflexivity|].
  destruct (String.eqb (lower k) "q"); reflexivity.
Qed.

Lemma one_locked_none w :
  KeyControl.locked_section None w
  = (Ret tt,
     with_current_key
       (if str_in (current_key w) ["1"; "2"]%string
        then logged ["ACTION: Stopping (key released)"%string] w
        else w)
       None).
Proof.
  unfold KeyControl.locked_section.
  rewrite (bind_ret _ _ _ _ _ (gets_eq _ w)).
  destruct (str_in (current_key w) _); reflexivity.
Qed.

Ltac run_wheel :=
  first
    [ rewrite (bind_ret _ _ _ _ _ (one_set_velocity_eq _ _ _))
    | rewrite (bind_ret _ _ _ _ _ (one_stop_motor_eq _ _))
    | rewrite (bind_ret _ _ _ _ _ (print_eq _ _)) ].

Lemma one_handle_input_eq s w :
  OneWheel.handle_input s w
  = if String.eqb s "1" then
      (Ret Continue, attempted axis0 1 ["Velocity set to: 1 counts/s"%string] w)
    else if String.eqb s "2" then
      (Ret Continue, attempted axis0 (-1) ["Velocity set to: -1 counts/s"%string] w)
    else if String.eqb s "0" then
      (Ret Continue, attempted axis0 0 ["Velocity set to: 0 counts/s"%string] w)
    else if String.eqb (lower s) "q" then
      (Ret Break,
       logged ["Exiting program..."%string]
         (attempted axis0 0 ["Velocity set to: 0 counts/s"%string]
            (logged ["Stopping motor..."%string] w)))
    else
      (Ret Continue,
       logged ["Invalid input. Please enter 1, 2, 0, or q."%string] w).
Proof.
  unfold OneWheel.handle_input.
  destruct (String.eqb s "1"); [repeat run_wheel; reflexivity|].
  destruct (String.eqb s "2"); [repeat run_wheel; reflexivity|].
  destruct (String.eqb s "0"); [repeat run_wheel; reflexivity|].
  destruct (String.eqb (lower s) "q"); repeat run_wheel; reflexivity.
Qed.

Lemma opt_str_eqb_neq k held :
  held <> Some k -> opt_str_eqb (Some k) held = false.
Proof.
  destruct held as [h|]; intros H; [|reflexivity]. simpl.
  apply String.eqb_neq. congruence.
Qed.

Lemma two_tick_stops w mon :
  running w = false ->
  TwoMotor.step Tick (mkProcess w mon Waiting)
  = mkProcess
      (logged ["Program terminated."%string]
         (logged ["All motors stopped"%string]
            (attempted axis1 0 [] (attempted axis0 0 [] w))))
      mon Exited.
Proof.
  intros H. unfold TwoMotor.step. cbn [main_thread mem monitor]. rewrite H.
  unfold TwoMotor.main_finally.
  rewrite (bind_ret _ _ _ _ _ (two_stop_all_motors_eq _ _ _)).
  reflexivity.
Qed.

(** C3 (the claim as stated fails): the two-motor dispatcher answers the
    quit key with [False] and sends nothing; both motors still have the
    set-point the ['w'] gave them. *)
Lemma quit_dispatch_sends_no_stop :
  let w1 := snd (TwoMotor.handle_motor_control "w" axis0 axis1 (world0 cooked [])) in
  let r := TwoMotor.handle_motor_control "esc" axis0 axis1 w1 in
  fst r = Ret false
  /\ commands (snd r) = commands w1
  /\ ~ In (stop_cmd axis0) (commands (snd r))
  /\ input_vel0 (snd r) = 1
  /\ input_vel1 (snd r) = 1.
Proof.
  vm_compute. repeat split; try reflexivity.
  intros [H|[H|[]]]; discriminate H.
Qed.

(** C3 (amended): the two-motor dispatcher returns [False] for ["esc"]
    and [True] for every other key, and sends no command for ["esc"];
    the locked section then clears [running] and breaks, and the stop of
    both motors is sent by the [finally] block of [main] once it sees
    [running] false.  In the key-control script a key whose lower case
    is ['q'] clears [running] (there is no motor), any other key leaves
    it.  In the line-based script an input whose lower case is ['q']
    stops the motor and leaves the loop, any other input continues. *)
Theorem quit_key_dispatch (k : string) (w : world) :
  let L := TwoMotor.LEFT_MOTOR_INDEX in
  let R := TwoMotor.RIGHT_MOTOR_INDEX in
  fst (TwoMotor.handle_motor_control k L R w)
  = Ret (negb (String.eqb k "esc"))
  /\ TwoMotor.handle_motor_control "esc" L R w
     = (Ret false, logged ["Command: Quit program"%string] w)
  /\ (current_key w <> Some "esc"%string ->
      TwoMotor.locked_section (Some "esc"%string) L R w
      = (Ret Break,
         with_running
           (logged ["Command: Quit program"%string]
              (with_current_key w (Some "esc"%string)))
           false))
  /\ (running w = false ->
      forall mon,
      exists w',
        TwoMotor.step Tick (mkProcess w mon Waiting) = mkProcess w' mon Exited
        /\ commands w' = commands w ++ [stop_cmd L; stop_cmd R])
  /\ (lower k = "q"%string ->
      current_key w <> Some k ->
      KeyControl.locked_section (Some k) w
      = (Ret tt,
         with_running
           (logged [(nl ++ "Quitting program...")%string]
              (with_current_key w (Some k)))
           false))
  /\ (lower k <> "q"%string ->
      running (snd (KeyControl.locked_section (Some k) w)) = running w)
  /\ (lower k = "q"%string ->
      exists w',
        OneWheel.handle_input k w = (Ret Break, w')
        /\ commands w' = commands w ++ [stop_cmd OneWheel.MOTOR_INDEX])
  /\ (lower k <> "q"%string ->
      fst (OneWheel.handle_input k w) = Ret Continue).
Proof.
  intros L R.
  split.
  { destruct (handle_motor_control_spec k L R w) as (w' & E & _).
    now rewrite E. }
  split; [apply two_dispatch_esc|].
  split.
  { intros H. rewrite two_locked_new by now apply opt_str_eqb_neq.
    now rewrite two_dispatch_esc. }
  split.
  { intros H mon. rewrite (two_tick_stops _ _ H).
    eexists. split; [reflexivity|].
    proj. now rewrite <- app_assoc. }
  split.
  { intros Q H. rewrite one_locked_new by now apply opt_str_eqb_neq.
    cbv zeta.
    destruct (lower_is_q k) as [[-> | ->] _]; auto. }
  split.
  { intros Q.
    destruct (opt_str_eqb (Some k) (current_key w)) eqn:E.
    - destruct (current_key w) as [h|] eqn:K; [|discriminate E].
      simpl in E. apply String.eqb_eq in E. subst h.
      now rewrite (one_locked_same k w K).
    - rewrite (one_locked_new k w E). cbv zeta. cbn [snd].
      apply String.eqb_neq in Q. rewrite Q.
      destruct (String.eqb k "1"); [reflexivity|].
      destruct (String.eqb k "2"); reflexivity. }
  split.
  { intros Q. rewrite one_handle_input_eq.
    destruct (lower_is_q k) as [[-> | ->] _]; auto;
      (eexists; split; [reflexivity|]); proj; reflexivity. }
  intros Q. rewrite one_handle_input_eq.
  apply String.eqb_neq in Q. rewrite Q.
  destruct (String.eqb k "1"); [reflexivity|].
  destruct (String.eqb k "2"); [reflexivity|].
  destruct (String.eqb k "0"); reflexivity.
Qed.

Lemma quit_key_dispatch_witness :
  let w := world0 cooked [] in
  let stopped := with_running w false in
  TwoMotor.locked_section (Some "esc"%string) axis0 axis1 w
  = (Ret Break,
     with_running
       (logged ["Command: Quit program"%string]
          (with_current_key w (Some "esc"%string)))
       false)
  /\ (exists w',
        TwoMotor.step Tick (mkProcess stopped Returned Waiting)
        = mkProcess w' Returned Exited
        /\ commands w' = [(axis0, 0); (axis1, 0)])
  /\ KeyControl.locked_section (Some "Q"%string) w
     = (Ret tt,
        with_running
          (logged [(nl ++ "Quitting program...")%string]
             (with_current_key w (Some "Q"%string)))
          false)
  /\ running (snd (KeyControl.locked_section (Some "x"%string) w)) = true
  /\ (exists w',
        OneWheel.handle_input "Q" w = (Ret Break, w')
        /\ commands w' = [(axis0, 0)])
  /\ fst (OneWheel.handle_input "x" w) = Ret Continue.
Proof.
  cbv zeta.
  destruct (quit_key_dispatch "Q" (world0 cooked []))
    as (_ & _ & H3 & _ & H5 & _ & H7 & _).
  destruct (quit_key_dispatch "x" (world0 cooked []))
    as (_ & _ & _ & _ & _ & H6 & _ & H8).
  destruct (quit_key_dispatch "x" (with_running (world0 cooked []) false))
    as (_ & _ & _ & H4 & _).
  split; [apply H3; discriminate|].
  split; [apply H4; reflexivity|].
  split; [apply H5; [reflexivity|discriminate]|].
  split; [apply H6; discriminate|].
  split; [apply H7; reflexivity|].
  apply H8; discriminate.
Defined.

(** C4 (the claim as stated fails): in the line-based single-motor
    script an input outside the table is answered with a message only;
    no command is sent and the motor keeps the set-point ['1'] gave it. *)
Lemma unmapped_line_sends_no_stop :
  let w1 := snd (OneWheel.handle_input "1" (world0 cooked [])) in
  let r := OneWheel.handle_input "x" w1 in
  input_vel0 w1 = 1
  /\ fst r = Ret Continue
  /\ commands (snd r) = commands w1
  /\ ~ In (stop_cmd OneWheel.MOTOR_INDEX) (commands (snd r))
  /\ input_vel0 (snd r) = 1.
Proof.
  vm_compute. repeat split; try reflexivity.
  intros [H|[]]; discriminate H.
Qed.

Lemma dict_miss_eqb d k s v :
  In (s, v) d -> dict_lookup d k = None -> String.eqb k s = false.
Proof.
  induction d as [|[k' v'] d IH]; intros HIn H; [contradiction|].
  cbn [dict_lookup] in H.
  destruct (String.eqb k' k) eqn:E; [discriminate|].
  destruct HIn as [HIn|HIn].
  - injection HIn as -> ->. now rewrite String.eqb_sym.
  - now apply IH.
Qed.

(** C4 (amended): a symbol outside the key table
    - in the key-control script takes the "Stopping (other key pressed)"
      action (when it is a new key: not the held one),
    - in the line-based single-motor script is rejected with "Invalid
      input" and sends no command,
    - in the two-motor script prints "Unknown key" and sends no command,
      the dispatcher returning [True]. *)
Theorem unmapped_symbol (k : string) (w : world) :
  (k <> "1"%string -> k <> "2"%string -> lower k <> "q"%string ->
   current_key w <> Some k ->
   KeyControl.locked_section (Some k) w
   = (Ret tt,
      logged ["ACTION: Stopping (other key pressed)"%string]
        (with_current_key w (Some k))))
  /\ (k <> "1"%string -> k <> "2"%string -> k <> "0"%string ->
      lower k <> "q"%string ->
      OneWheel.handle_input k w
      = (Ret Continue,
         logged ["Invalid input. Please enter 1, 2, 0, or q."%string] w))
  /\ (dict_lookup TwoMotor.key_name k = None ->
      TwoMotor.handle_motor_control k
        TwoMotor.LEFT_MOTOR_INDEX TwoMotor.RIGHT_MOTOR_INDEX w
      = (Ret true, logged ["Command: Unknown key"%string] w)).
Proof.
  split; [|split].
  - intros H1 H2 Hq Hk.
    rewrite one_locked_new by now apply opt_str_eqb_neq.
    apply String.eqb_neq in H1, H2, Hq. cbv zeta.
    now rewrite H1, H2, Hq.
  - intros H1 H2 H0 Hq. rewrite one_handle_input_eq.
    apply String.eqb_neq in H1, H2, H0, Hq.
    now rewrite H1, H2, H0, Hq.
  - intros H. unfold TwoMotor.handle_motor_control.
    rewrite (bind_ret _ _ _ _ _ (print_eq _ w)).
    unfold dict_get. rewrite H.
    repeat match goal with
           | |- context [if String.eqb k ?s then _ else _] =>
               rewrite (dict_miss_eqb TwoMotor.key_name k s _ ltac:(cbn; eauto 20) H)
           end.
    reflexivity.
Qed.

Lemma unmapped_symbol_witness :
  let w := world0 cooked [] in
  KeyControl.locked_section (Some "z"%string) w
  = (Ret tt,
     logged ["ACTION: Stopping (other key pressed)"%string]
       (with_current_key w (Some "z"%string)))
  /\ OneWheel.handle_input "z" w
     = (Ret Continue,
        logged ["Invalid input. Please enter 1, 2, 0, or q."%string] w)
  /\ TwoMotor.handle_motor_control "z" axis0 axis1 w
     = (Ret true, logged ["Command: Unknown key"%string] w).
Proof.
  cbv zeta.
  destruct (unmapped_symbol "z" (world0 cooked [])) as (H1 & H2 & H3).
  split; [apply H1; discriminate|].
  split; [apply H2; discriminate|].
  apply H3; reflexivity.
Defined.

(** ** Failing writes *)

Lemma attempted_failed a v l w msg rest :
  faults w = Some msg :: rest ->
  attempted a v l w
  = logged [("Failed to set velocity: " ++ msg)%string]
      (with_faults (with_commands w (commands w ++ [(a, v)])) rest).
Proof. intros H. unfold attempted. now rewrite H. Qed.

Lemma sample_two_key c :
  Ascii.eqb c (ascii_of_nat 3) = false ->
  Ascii.eqb c (ascii_of_nat 27) = false ->
  sample_two (Some c) = Ret (Some (String c EmptyString)).
Proof.
  intros H3 H27. unfold sample_two, CTRL_C, ESC.
  cbn [String.eqb]. now rewrite H3, H27.
Qed.

Lemma two_iteration_running c l r w :
  Ascii.eqb c (ascii_of_nat 3) = false ->
  Ascii.eqb c (ascii_of_nat 27) = false ->
  exists w',
    TwoMotor.monitor_iteration (Some c) l r w = (Ret Continue, w')
    /\ running w' = running w.
Proof.
  intros H3 H27.
  rewrite two_iteration_eq, (sample_two_key c H3 H27).
  set (w0 := with_term_ops w _).
  destruct (opt_str_eqb (Some (String c EmptyString)) (current_key w0)) eqn:E.
  - destruct (current_key w0) as [h|] eqn:K; [|discriminate E].
    cbn [opt_str_eqb] in E. apply String.eqb_eq in E. subst h.
    rewrite (two_locked_same _ l r w0 K). now exists w0.
  - destruct (two_locked_press _ l r w0 E) as (w' & A & ->).
    cbn [String.eqb]. destruct (Ascii.eqb c "e"); cbv iota.
    + exists w'. split; [reflexivity|]. destruct A as (A & _). now rewrite A.
    + exists w'. split; [reflexivity|]. destruct A as (A & _). now rewrite A.
Qed.

(** C9: a write to [input_vel] that the device refuses is contained.
    [set_motor_velocity], [stop_motor] (two-motor script),
    [set_velocity] and [stop_motor] (line-based script) return normally
    whatever the device does; when the write fails, the failure is
    printed, both set-points stay as they were, and the loop goes on:
    the monitor iteration of any key byte continues with [running]
    unchanged, and the command loop continues after ['1'], ['2'], ['0']. *)
Theorem actuator_failure_is_contained (ax : axis) (v : Z) (w : world) :
  (fst (TwoMotor.set_motor_velocity ax v w) = Ret tt
   /\ fst (TwoMotor.stop_motor ax w) = Ret tt
   /\ fst (OneWheel.set_velocity ax v w) = Ret tt
   /\ fst (OneWheel.stop_motor ax w) = Ret tt)
  /\ (forall msg rest,
      faults w = Some msg :: rest ->
      let report := [("Failed to set velocity: " ++ msg)%string] in
      let dropped u w0 :=
        with_faults (with_commands w0 (commands w0 ++ [(ax, u)])) rest in
      TwoMotor.set_motor_velocity ax v w = (Ret tt, logged report (dropped v w))
      /\ TwoMotor.stop_motor ax w = (Ret tt, logged report (dropped 0 w))
      /\ OneWheel.set_velocity ax v w = (Ret tt, logged report (dropped v w))
      /\ OneWheel.stop_motor ax w
         = (Ret tt,
            logged report (dropped 0 (logged ["Stopping motor..."%string] w)))
      /\ input_vel0 (snd (TwoMotor.set_motor_velocity ax v w)) = input_vel0 w
      /\ input_vel1 (snd (TwoMotor.set_motor_velocity ax v w)) = input_vel1 w
      /\ input_vel0 (snd (OneWheel.set_velocity ax v w)) = input_vel0 w
      /\ input_vel1 (snd (OneWheel.set_velocity ax v w)) = input_vel1 w)
  /\ (forall c,
      Ascii.eqb c (ascii_of_nat 3) = false ->
      Ascii.eqb c (ascii_of_nat 27) = false ->
      exists w',
        TwoMotor.monitor_iteration (Some c)
          TwoMotor.LEFT_MOTOR_INDEX TwoMotor.RIGHT_MOTOR_INDEX w
        = (Ret Continue, w')
        /\ running w' = running w)
  /\ (forall s, In s ["1"; "2"; "0"]%string ->
      fst (OneWheel.handle_input s w) = Ret Continue).
Proof.
  split.
  { rewrite two_set_motor_velocity_eq, two_stop_motor_eq,
      one_set_velocity_eq, one_stop_motor_eq. repeat split. }
  split.
  { intros msg rest F report dropped. subst report dropped. cbv beta.
    rewrite two_set_motor_velocity_eq, two_stop_motor_eq,
      one_set_velocity_eq, one_stop_motor_eq.
    rewrite !(attempted_failed _ _ _ w msg rest F).
    rewrite (attempted_failed _ _ _ (logged _ w) msg rest F).
    repeat split. }
  split.
  { intros c H3 H27. now apply two_iteration_running. }
  intros s [<-|[<-|[<-|[]]]]; rewrite one_handle_input_eq; reflexivity.
Qed.

Lemma actuator_failure_is_contained_witness :
  let w := world0 cooked [Some "usb timeout"%string] in
  TwoMotor.set_motor_velocity axis0 1 w
  = (Ret tt,
     logged ["Failed to set velocity: usb timeout"%string]
       (with_faults (with_commands w [(axis0, 1)]) []))
  /\ (exists w',
        TwoMotor.monitor_iteration (Some "1"%char) axis0 axis1 w
        = (Ret Continue, w')
        /\ running w' = true)
  /\ fst (OneWheel.handle_input "1" w) = Ret Continue.
Proof.
  cbv zeta.
  destruct (actuator_failure_is_contained axis0 1
              (world0 cooked [Some "usb timeout"%string]))
    as (_ & H2 & H3 & H4).
  split; [apply (H2 "usb timeout"%string []); reflexivity|].
  split; [apply H3; reflexivity|].
  apply H4. simpl. auto.
Defined.

(** ** The [running] flag *)

Lemma two_locked_latch key l r w :
  running w = false ->
  running (snd (TwoMotor.locked_section key l r w)) = false.
Proof.
  intros H. destruct key as [k|].
  - destruct (opt_str_eqb (Some k) (current_key w)) eqn:E.
    + destruct (current_key w) as [h|] eqn:K; [|discriminate E].
      cbn [opt_str_eqb] in E. apply String.eqb_eq in E. subst h.
      now rewrite (two_locked_same k l r w K).
    + destruct (two_locked_press k l r w E) as (w' & (A & _) & ->).
      destruct (String.eqb k "esc"); cbn [snd]; [reflexivity|].
      now rewrite A.
  - destruct (current_key w) as [h|] eqn:K.
    + rewrite (two_locked_release h l r w K). cbn [snd]. now proj.
    + now rewrite (two_locked_idle l r w K).
Qed.

Lemma two_iteration_latch ev l r w :
  running w = false ->
  running (snd (TwoMotor.monitor_iteration ev l r w)) = false.
Proof.
  intros H. rewrite two_iteration_eq.
  destruct (sample_two ev) as [key|e]; [|exact H].
  now apply two_locked_latch.
Qed.

Lemma one_locked_latch key w :
  running w = false ->
  running (snd (KeyControl.locked_section key w)) = false.
Proof.
  intros H. destruct key as [k|].
  - destruct (opt_str_eqb (Some k) (current_key w)) eqn:E.
    + destruct (current_key w) as [h|] eqn:K; [|discriminate E].
      cbn [opt_str_eqb] in E. apply String.eqb_eq in E. subst h.
      now rewrite (one_locked_same k w K).
    + rewrite (one_locked_new k w E). cbv zeta. cbn [snd].
      destruct (String.eqb k "1"); [exact H|].
      destruct (String.eqb k "2"); [exact H|].
      destruct (String.eqb (lower k) "q"); [reflexivity|exact H].
  - rewrite one_locked_none. cbn [snd].
    destruct (str_in (current_key w) _); exact H.
Qed.

Lemma one_iteration_latch ev w :
  running w = false ->
  running (snd (KeyControl.monitor_iteration ev w)) = false.
Proof.
  intros H. rewrite one_iteration_eq.
  destruct (sample_one ev) as [key|e]; [|exact H].
  now apply one_locked_latch.
Qed.

Lemma two_main_finally_running l r w :
  running (snd (TwoMotor.main_finally l r w)) = running w.
Proof.
  unfold TwoMotor.main_finally.
  rewrite (bind_ret _ _ _ _ _ (two_stop_all_motors_eq _ _ _)).
  change (running (logged ["Program terminated."%string]
                     (logged ["All motors stopped"%string]
                        (attempted r 0 [] (attempted l 0 [] w))))
          = running w).
  now proj.
Qed.

Lemma two_step_latch x p :
  running (mem p) = false -> running (mem (TwoMotor.step x p)) = false.
Proof.
  intros H. unfold TwoMotor.step.
  destruct (main_thread p); [|exact H].
  destruct x as [ev| |].
  - destruct (monitor p); try exact H. rewrite H. exact H.
  - reflexivity.
  - rewrite H.
    pose proof (two_main_finally_running axis0 axis1 (mem p)) as F.
    unfold TwoMotor.LEFT_MOTOR_INDEX, TwoMotor.RIGHT_MOTOR_INDEX.
    destruct (TwoMotor.main_finally axis0 axis1 (mem p)) as [o w'].
    cbn [snd] in F. cbn [mem]. congruence.
Qed.

Lemma one_step_latch x p :
  running (mem p) = false -> running (mem (KeyControl.step x p)) = false.
Proof.
  intros H. unfold KeyControl.step.
  destruct (main_thread p); [|exact H].
  destruct x as [ev| |].
  - destruct (monitor p); try exact H. rewrite H. exact H.
  - reflexivity.
  - rewrite H. exact H.
Qed.

(** C8: [running] starts [True] and is a one-way latch.  Once it is
    [False], no operation of the two key scripts makes it [True] again:
    not a monitor iteration (whatever it samples, also one overtaken by
    the signal), not the signal handler, not the [finally] block of
    [main]; hence it stays [False] along every run of either process. *)
Theorem running_is_one_way (w : world) (p : process) :
  (forall mode fs, running (mem (process0 mode fs)) = true)
  /\ (running w = false ->
      forall ev,
        running (snd (TwoMotor.monitor_iteration ev
                        TwoMotor.LEFT_MOTOR_INDEX TwoMotor.RIGHT_MOTOR_INDEX w))
        = false
        /\ running (snd (KeyControl.monitor_iteration ev w)) = false)
  /\ (running (snd (TwoMotor.signal_handler w)) = false
      /\ running (snd (KeyControl.signal_handler w)) = false)
  /\ (running w = false ->
      running (snd (TwoMotor.main_finally
                      TwoMotor.LEFT_MOTOR_INDEX TwoMotor.RIGHT_MOTOR_INDEX w))
      = false
      /\ running (snd (KeyControl.main_finally w)) = false)
  /\ (running (mem p) = false ->
      forall xs,
        running (mem (TwoMotor.run xs p)) = false
        /\ running (mem (KeyControl.run xs p)) = false).
Proof.
  split; [reflexivity|].
  split.
  { intros H ev. split;
      [now apply two_iteration_latch | now apply one_iteration_latch]. }
  split; [split; reflexivity|].
  split.
  { intros H. split; [|exact H]. now rewrite two_main_finally_running. }
  intros H xs. split.
  - revert p H. unfold TwoMotor.run.
    induction xs as [|x xs IH]; intros p H; [exact H|].
    cbn [fold_left]. apply IH. now apply two_step_latch.
  - revert p H. unfold KeyControl.run.
    induction xs as [|x xs IH]; intros p H; [exact H|].
    cbn [fold_left]. apply IH. now apply one_step_latch.
Qed.

Lemma running_is_one_way_witness :
  let p := TwoMotor.run [Tty (typed "w"); SIGINT] (process0 cooked []) in
  running (mem p) = false
  /\ running (mem (TwoMotor.run [Tty (typed "1"); Tty None; Tick; SIGINT] p)) = false
  /\ running (snd (TwoMotor.monitor_iteration (typed "1") axis0 axis1 (mem p)))
     = false.
Proof.
  cbv zeta.
  destruct (running_is_one_way
              (mem (TwoMotor.run [Tty (typed "w"); SIGINT] (process0 cooked [])))
              (TwoMotor.run [Tty (typed "w"); SIGINT] (process0 cooked [])))
    as (_ & H2 & _ & _ & H5).
  split; [reflexivity|].
  split; [apply H5; reflexivity|].
  apply H2; reflexivity.
Defined.

(** ** The motor side never looks at the terminal log *)

Lemma oblivious_ret {A} (a : A) : oblivious (ret a).
Proof. intros w ops. reflexivity. Qed.

Lemma oblivious_bind {A B} (m : M A) (k : A -> M B) :
  oblivious m -> (forall a, oblivious (k a)) -> oblivious (bind m k).
Proof.
  intros Hm Hk w ops. unfold bind. rewrite Hm.
  destruct (m w) as [[a|e] w']; cbn [fst snd]; [apply Hk|reflexivity].
Qed.

Lemma oblivious_try_except {A} (body : M A) (handler : exn -> M A) :
  oblivious body -> (forall e, oblivious (handler e)) ->
  oblivious (try_except body handler).
Proof.
  intros Hb Hh w ops. unfold try_except. rewrite Hb.
  destruct (body w) as [[a|e] w']; cbn [fst snd]; [reflexivity|].
  destruct (isinstance_Exception e); [apply Hh|reflexivity].
Qed.

Lemma oblivious_print s : oblivious (print s).
Proof. intros w ops. reflexivity. Qed.

Lemma oblivious_gets_current_key : oblivious (gets current_key).
Proof. intros w ops. reflexivity. Qed.

Lemma oblivious_set_current_key k :
  oblivious (modify (fun w => with_current_key w k)).
Proof. intros w ops. reflexivity. Qed.

Lemma oblivious_set_running b :
  oblivious (modify (fun w => with_running w b)).
Proof. intros w ops. reflexivity. Qed.

Lemma oblivious_assign a v : oblivious (assign_input_vel a v).
Proof.
  intros w ops. unfold assign_input_vel. cbn [faults with_term_ops].
  destruct (faults w) as [|[m|] r], a; reflexivity.
Qed.

Ltac oblivious_tac :=
  repeat first
    [ apply oblivious_ret
    | apply oblivious_print
    | apply oblivious_gets_current_key
    | apply oblivious_set_current_key
    | apply oblivious_set_running
    | apply oblivious_assign
    | apply oblivious_bind; [|intro]
    | apply oblivious_try_except; [|intro]
    | match goal with
      | |- oblivious (if ?b then _ else _) => destruct b
      | |- oblivious (match ?x with _ => _ end) => destruct x
      end ].

Lemma oblivious_set_motor_velocity a v :
  oblivious (TwoMotor.set_motor_velocity a v).
Proof. unfold TwoMotor.set_motor_velocity. oblivious_tac. Qed.

Lemma oblivious_stop_all_motors l r :
  oblivious (TwoMotor.stop_all_motors l r).
Proof.
  unfold TwoMotor.stop_all_motors, TwoMotor.stop_motor.
  repeat first [apply oblivious_set_motor_velocity | oblivious_tac].
Qed.

Lemma oblivious_handle_motor_control k l r :
  oblivious (TwoMotor.handle_motor_control k l r).
Proof.
  unfold TwoMotor.handle_motor_control.
  apply oblivious_bind; [apply oblivious_print|intros _].
  repeat match goal with
         | |- oblivious (if ?b then _ else _) => destruct b
         | |- oblivious (bind _ _) => apply oblivious_bind; [|intros _]
         | |- oblivious (ret _) => apply oblivious_ret
         | |- oblivious (TwoMotor.set_motor_velocity _ _) =>
             apply oblivious_set_motor_velocity
         | |- oblivious (TwoMotor.stop_all_motors _ _) =>
             apply oblivious_stop_all_motors
         end.
Qed.

Lemma oblivious_two_locked key l r :
  oblivious (TwoMotor.locked_section key l r).
Proof.
  unfold TwoMotor.locked_section. destruct key as [k|].
  - apply oblivious_bind; [apply oblivious_gets_current_key|intros held].
    destruct (negb _); [|apply oblivious_ret].
    apply oblivious_bind; [apply oblivious_set_current_key|intros _].
    apply oblivious_bind; [apply oblivious_handle_motor_control|intros go_on].
    destruct (negb go_on); oblivious_tac.
  - apply oblivious_bind; [apply oblivious_gets_current_key|intros held].
    destruct held; [|apply oblivious_ret].
    apply oblivious_bind; [apply oblivious_print|intros _].
    apply oblivious_bind; [apply oblivious_stop_all_motors|intros _].
    oblivious_tac.
Qed.

Lemma oblivious_one_locked key : oblivious (KeyControl.locked_section key).
Proof. unfold KeyControl.locked_section. oblivious_tac. Qed.

(** ** Holding a key *)

Lemma same_run_refl {A} (r : outcome A * world) : same_run r r.
Proof. now split. Qed.

Lemma same_run_sym {A} (r1 r2 : outcome A * world) :
  same_run r1 r2 -> same_run r2 r1.
Proof. intros [H1 H2]. now split. Qed.

Lemma same_run_trans {A} (r1 r2 r3 : outcome A * world) :
  same_run r1 r2 -> same_run r2 r3 -> same_run r1 r3.
Proof. intros [H1 H2] [H3 H4]. split; congruence. Qed.

Lemma with_term_ops_twice w o1 o2 :
  with_term_ops (with_term_ops w o1) o2 = with_term_ops w o2.
Proof. reflexivity. Qed.

Lemma forget_with_term_ops w o : forget_ops (with_term_ops w o) = forget_ops w.
Proof. reflexivity. Qed.

Lemma two_locked_current_key key l r w :
  current_key (snd (TwoMotor.locked_section key l r w)) = key.
Proof.
  destruct key as [k|].
  - destruct (opt_str_eqb (Some k) (current_key w)) eqn:E.
    + destruct (current_key w) as [h|] eqn:K; [|discriminate E].
      cbn [opt_str_eqb] in E. apply String.eqb_eq in E. subst h.
      now rewrite (two_locked_same k l r w K).
    + destruct (two_locked_press k l r w E) as (w' & (_ & A & _) & ->).
      destruct (String.eqb k "esc"); cbn [snd]; proj; rewrite A; now proj.
  - destruct (current_key w) as [h|] eqn:K.
    + rewrite (two_locked_release h l r w K). cbn [snd]. now proj.
    + now rewrite (two_locked_idle l r w K).
Qed.

Lemma two_thread_oblivious l r evs :
  forall w ops,
    same_run (TwoMotor.key_monitor_thread l r evs (with_term_ops w ops))
             (TwoMotor.key_monitor_thread l r evs w).
Proof.
  induction evs as [|ev evs IH]; intros w ops.
  - rewrite !two_thread_nil. proj. now split.
  - destruct (running w) eqn:R.
    2:{ rewrite !two_thread_stopped by (proj; exact R). now split. }
    rewrite !two_thread_cons by (proj; exact R).
    rewrite !two_iteration_eq.
    destruct (sample_two ev) as [key|e]; [|now split].
    rewrite with_term_ops_twice.
    rewrite !(oblivious_two_locked key l r w).
    destruct (TwoMotor.locked_section key l r w) as [[[|]|e] w1];
      cbn [fst snd]; try (now split).
    eapply same_run_trans; [apply IH|apply same_run_sym, IH].
Qed.

Lemma two_thread_congr l r ev evs1 evs2 w :
  (forall w', same_run (TwoMotor.key_monitor_thread l r evs1 w')
                       (TwoMotor.key_monitor_thread l r evs2 w')) ->
  same_run (TwoMotor.key_monitor_thread l r (ev :: evs1) w)
           (TwoMotor.key_monitor_thread l r (ev :: evs2) w).
Proof.
  intros H. destruct (running w) eqn:R.
  2:{ rewrite !two_thread_stopped by exact R. apply same_run_refl. }
  rewrite !two_thread_cons by exact R.
  destruct (TwoMotor.monitor_iteration ev l r w) as [[[|]|e] w1];
    [apply H|apply same_run_refl|apply same_run_refl].
Qed.

Lemma two_hold_head l r c (evs : list tty_event) w :
  same_run (TwoMotor.key_monitor_thread l r (Some c :: Some c :: evs) w)
           (TwoMotor.key_monitor_thread l r (Some c :: evs) w).
Proof.
  destruct (running w) eqn:R.
  2:{ rewrite !two_thread_stopped by exact R. apply same_run_refl. }
  rewrite !(two_thread_cons l r (Some c) _ w R).
  destruct (TwoMotor.monitor_iteration (Some c) l r w) as [[[|]|e] w1] eqn:E;
    try apply same_run_refl.
  rewrite two_iteration_eq in E.
  destruct (sample_two (Some c)) as [[k|]|e] eqn:S; try discriminate E.
  2:{ unfold sample_two in S.
      destruct (String.eqb _ CTRL_C); [discriminate S|].
      destruct (String.eqb _ ESC); discriminate S. }
  assert (K : current_key w1 = Some k).
  { pose proof (two_locked_current_key (Some k) l r
                  (with_term_ops w (term_ops w ++ getch_ops (Some c) (term w))))
      as K.
    now rewrite E in K. }
  destruct (running w1) eqn:R1.
  2:{ rewrite !two_thread_stopped by exact R1. apply same_run_refl. }
  rewrite two_thread_cons by exact R1.
  rewrite two_iteration_eq, S.
  rewrite two_locked_same by (proj; exact K).
  apply two_thread_oblivious.
Qed.

Lemma tty_event_eqb_eq x y : tty_event_eqb x y = true -> x = y.
Proof.
  destruct x as [a|], y as [b|]; cbn; try discriminate; [|reflexivity].
  intros H. apply Ascii.eqb_eq in H. now subst.
Qed.

Lemma two_squash l r evs :
  forall w,
    same_run (TwoMotor.key_monitor_thread l r evs w)
             (TwoMotor.key_monitor_thread l r (squash evs) w).
Proof.
  induction evs as [|ev rest IH]; intros w; [apply same_run_refl|].
  cbn [squash].
  destruct ev as [c|]; [|now apply two_thread_congr].
  destruct rest as [|ev' rest']; [apply same_run_refl|].
  destruct (tty_event_eqb (Some c) ev') eqn:E; [|now apply two_thread_congr].
  apply tty_event_eqb_eq in E. subst ev'.
  eapply same_run_trans; [apply two_hold_head|apply IH].
Qed.

Lemma one_thread_cons ev evs w :
  running w = true ->
  KeyControl.key_monitor_thread (ev :: evs) w
  = match KeyControl.monitor_iteration ev w with
    | (Ret _, w') => KeyControl.key_monitor_thread evs w'
    | (Raise e, w') => (Raise e, w')
    end.
Proof.
  intros H. cbn [KeyControl.key_monitor_thread].
  rewrite (bind_ret _ _ _ _ _ (gets_eq _ w)), H.
  unfold bind at 1.
  destruct (KeyControl.monitor_iteration ev w) as [[[]|e] w']; reflexivity.
Qed.

Lemma one_thread_nil w :
  KeyControl.key_monitor_thread [] w
  = (Ret (if running w then Alive else Returned), w).
Proof.
  cbn [KeyControl.key_monitor_thread].
  rewrite (bind_ret _ _ _ _ _ (gets_eq _ w)).
  destruct (running w); reflexivity.
Qed.

Lemma one_thread_stopped evs w :
  running w = false ->
  KeyControl.key_monitor_thread evs w = (Ret Returned, w).
Proof.
  intros H. destruct evs; cbn [KeyControl.key_monitor_thread];
    now rewrite (bind_ret _ _ _ _ _ (gets_eq _ w)), H.
Qed.

Lemma one_locked_returns key w :
  fst (KeyControl.locked_section key w) = Ret tt.
Proof.
  destruct key as [k|]; [|now rewrite one_locked_none].
  destruct (opt_str_eqb (Some k) (current_key w)) eqn:E.
  - destruct (current_key w) as [h|] eqn:K; [|discriminate E].
    cbn [opt_str_eqb] in E. apply String.eqb_eq in E. subst h.
    now rewrite (one_locked_same k w K).
  - now rewrite (one_locked_new k w E).
Qed.

Lemma one_locked_current_key key w :
  current_key (snd (KeyControl.locked_section key w)) = key.
Proof.
  destruct key as [k|]; [|now rewrite one_locked_none].
  destruct (opt_str_eqb (Some k) (current_key w)) eqn:E.
  - destruct (current_key w) as [h|] eqn:K; [|discriminate E].
    cbn [opt_str_eqb] in E. apply String.eqb_eq in E. subst h.
    now rewrite (one_locked_same k w K).
  - rewrite (one_locked_new k w E). cbv zeta. cbn [snd].
    destruct (String.eqb k "1"); [now proj|].
    destruct (String.eqb k "2"); [now proj|].
    destruct (String.eqb (lower k) "q"); now proj.
Qed.

Lemma one_thread_oblivious evs :
  forall w ops,
    same_run (KeyControl.key_monitor_thread evs (with_term_ops w ops))
             (KeyControl.key_monitor_thread evs w).
Proof.
  induction evs as [|ev evs IH]; intros w ops.
  - rewrite !one_thread_nil. proj. now split.
  - destruct (running w) eqn:R.
    2:{ rewrite !one_thread_stopped by (proj; exact R). now split. }
    rewrite !one_thread_cons by (proj; exact R).
    rewrite !one_iteration_eq.
    destruct (sample_one ev) as [key|e]; [|now split].
    rewrite with_term_ops_twice.
    rewrite !(oblivious_one_locked key w).
    destruct (KeyControl.locked_section key w) as [[[]|e] w1];
      cbn [fst snd]; try (now split).
    eapply same_run_trans; [apply IH|apply same_run_sym, IH].
Qed.

Lemma one_thread_congr ev evs1 evs2 w :
  (forall w', same_run (KeyControl.key_monitor_thread evs1 w')
                       (KeyControl.key_monitor_thread evs2 w')) ->
  same_run (KeyControl.key_monitor_thread (ev :: evs1) w)
           (KeyControl.key_monitor_thread (ev :: evs2) w).
Proof.
  intros H. destruct (running w) eqn:R.
  2:{ rewrite !one_thread_stopped by exact R. apply same_run_refl. }
  rewrite !one_thread_cons by exact R.
  destruct (KeyControl.monitor_iteration ev w) as [[[]|e] w1];
    [apply H|apply same_run_refl].
Qed.

Lemma one_hold_head c (evs : list tty_event) w :
  same_run (KeyControl.key_monitor_thread (Some c :: Some c :: evs) w)
           (KeyControl.key_monitor_thread (Some c :: evs) w).
Proof.
  destruct (running w) eqn:R.
  2:{ rewrite !one_thread_stopped by exact R. apply same_run_refl. }
  rewrite !(one_thread_cons (Some c) _ w R).
  destruct (KeyControl.monitor_iteration (Some c) w) as [[[]|e] w1] eqn:E;
    try apply same_run_refl.
  rewrite one_iteration_eq in E.
  destruct (sample_one (Some c)) as [[k|]|e] eqn:S; try discriminate E.
  2:{ unfold sample_one in S.
      destruct (String.eqb _ CTRL_C); discriminate S. }
  assert (K : current_key w1 = Some k).
  { pose proof (one_locked_current_key (Some k)
                  (with_term_ops w (term_ops w ++ getch_ops (Some c) (term w))))
      as K.
    now rewrite E in K. }
  destruct (running w1) eqn:R1.
  2:{ rewrite !one_thread_stopped by exact R1. apply same_run_refl. }
  rewrite one_thread_cons by exact R1.
  rewrite one_iteration_eq, S.
  rewrite one_locked_same by (proj; exact K).
  apply one_thread_oblivious.
Qed.

Lemma one_squash evs :
  forall w,
    same_run (KeyControl.key_monitor_thread evs w)
             (KeyControl.key_monitor_thread (squash evs) w).
Proof.
  induction evs as [|ev rest IH]; intros w; [apply same_run_refl|].
  cbn [squash].
  destruct ev as [c|]; [|now apply one_thread_congr].
  destruct rest as [|ev' rest']; [apply same_run_refl|].
  destruct (tty_event_eqb (Some c) ev') eqn:E; [|now apply one_thread_congr].
  apply tty_event_eqb_eq in E. subst ev'.
  eapply same_run_trans; [apply one_hold_head|apply IH].
Qed.

(** C5: a key that stays held is dispatched once.  In both key scripts
    - a sample equal to the held key leaves the whole world untouched
      (no command, nothing printed, [current_key] unchanged);
    - after the locked section [current_key] is the sample just taken, so
      it changes only when the sample differs from it and is [None] after
      an empty window;
    - for every sequence of sampling windows, dropping the repeats of a
      held byte changes nothing but the log of terminal calls: same
      console, commands, set-points, globals and thread outcome. *)
Theorem held_key_dispatched_once
  (k : string) (sample : option string) (evs : list tty_event) (w : world) :
  let L := TwoMotor.LEFT_MOTOR_INDEX in
  let R := TwoMotor.RIGHT_MOTOR_INDEX in
  (current_key w = Some k ->
   TwoMotor.locked_section (Some k) L R w = (Ret Continue, w)
   /\ KeyControl.locked_section (Some k) w = (Ret tt, w))
  /\ (current_key (snd (TwoMotor.locked_section sample L R w)) = sample
      /\ current_key (snd (KeyControl.locked_section sample w)) = sample)
  /\ (current_key (snd (TwoMotor.locked_section sample L R w)) <> current_key w ->
      sample <> current_key w)
  /\ (current_key (snd (KeyControl.locked_section sample w)) <> current_key w ->
      sample <> current_key w)
  /\ (current_key (snd (TwoMotor.locked_section None L R w)) = None
      /\ current_key (snd (KeyControl.locked_section None w)) = None)
  /\ same_run (TwoMotor.key_monitor_thread L R evs w)
              (TwoMotor.key_monitor_thread L R (squash evs) w)
  /\ same_run (KeyControl.key_monitor_thread evs w)
              (KeyControl.key_monitor_thread (squash evs) w).
Proof.
  intros L R.
  split.
  { intros K. split; [now apply two_locked_same|now apply one_locked_same]. }
  split.
  { split; [apply two_locked_current_key|apply one_locked_current_key]. }
  split.
  { rewrite two_locked_current_key. congruence. }
  split.
  { rewrite one_locked_current_key. congruence. }
  split.
  { split; [apply two_locked_current_key|apply one_locked_current_key]. }
  split; [apply two_squash|apply one_squash].
Qed.

Lemma held_key_dispatched_once_witness :
  let w := snd (TwoMotor.key_monitor_thread axis0 axis1 [typed "w"]
                  (world0 cooked [])) in
  current_key w = Some "w"%string
  /\ TwoMotor.locked_section (Some "w"%string) axis0 axis1 w = (Ret Continue, w)
  /\ (current_key (snd (TwoMotor.locked_section (Some "a"%string) axis0 axis1 w))
      <> current_key w
      /\ Some "a"%string <> current_key w).
Proof.
  cbv zeta.
  destruct (held_key_dispatched_once "w" (Some "a"%string) []
              (snd (TwoMotor.key_monitor_thread axis0 axis1 [typed "w"]
                      (world0 cooked []))))
    as (H1 & _ & H3 & _).
  split; [reflexivity|].
  split; [apply H1; reflexivity|].
  assert (N : current_key
                (snd (TwoMotor.locked_section (Some "a"%string)
                        TwoMotor.LEFT_MOTOR_INDEX TwoMotor.RIGHT_MOTOR_INDEX
                        (snd (TwoMotor.key_monitor_thread axis0 axis1 [typed "w"]
                                (world0 cooked [])))))
              <> current_key
                   (snd (TwoMotor.key_monitor_thread axis0 axis1 [typed "w"]
                           (world0 cooked []))))
    by (vm_compute; discriminate).
  split; [exact N|exact (H3 N)].
Defined.

(** ** Releases *)

Lemma quiet_filters lines :
  forallb quiet lines = true ->
  filter (String.eqb "Keys released, stopping all motors") lines = []
  /\ filter (String.prefix "Command: ") lines = [].
Proof.
  induction lines as [|x lines IH]; cbn [forallb filter]; [now split|].
  intros H. apply andb_true_iff in H as [Q H].
  destruct (IH H) as [IH1 IH2]. unfold quiet in Q.
  apply andb_true_iff in Q as [Q1 Q2].
  apply negb_true_iff in Q1, Q2. now rewrite Q1, Q2.
Qed.

Lemma actuator_only_counts w w' :
  actuator_only w w' -> releases w' = releases w /\ presses w' = presses w.
Proof.
  intros (_ & _ & _ & _ & (lines & E & Q) & _).
  destruct (quiet_filters lines Q) as [F1 F2].
  unfold releases, presses, count_lines.
  now rewrite E, !filter_app, F1, F2, !app_nil_r.
Qed.

Lemma command_line_is_press name :
  String.prefix "Command: " ("Command: " ++ name) = true.
Proof. destruct name; reflexivity. Qed.

Lemma command_line_not_release name :
  String.eqb "Keys released, stopping all motors" ("Command: " ++ name) = false.
Proof. reflexivity. Qed.

Lemma command_line_counts name w :
  releases (logged [("Command: " ++ name)%string] w) = releases w
  /\ presses (logged [("Command: " ++ name)%string] w) = S (presses w).
Proof.
  unfold releases, presses, count_lines. proj.
  rewrite !filter_app, !length_app. cbn [filter].
  rewrite command_line_is_press, command_line_not_release.
  cbn [Datatypes.length]. split; lia.
Qed.

Lemma release_line_counts w :
  releases (logged ["Keys released, stopping all motors"%string] w)
  = S (releases w)
  /\ presses (logged ["Keys released, stopping all motors"%string] w)
     = presses w.
Proof.
  unfold releases, presses, count_lines. proj.
  rewrite !filter_app, !length_app. cbn. split; lia.
Qed.

Lemma with_current_key_actuator_only w w' k :
  actuator_only w w' ->
  releases (with_current_key w' k) = releases w
  /\ presses (with_current_key w' k) = presses w.
Proof. intros A. now apply actuator_only_counts in A. Qed.

Lemma two_release_counts k l r w :
  current_key w = Some k ->
  exists w',
    TwoMotor.locked_section None l r w = (Ret Continue, w')
    /\ releases w' = S (releases w)
    /\ presses w' = presses w
    /\ commands w' = commands w ++ [stop_cmd l; stop_cmd r]
    /\ current_key w' = None.
Proof.
  intros K. rewrite (two_locked_release k l r w K).
  eexists. split; [reflexivity|].
  destruct (release_line_counts w) as [R1 P1].
  assert (A : actuator_only
                (logged ["Keys released, stopping all motors"%string] w)
                (logged ["All motors stopped"%string]
                   (attempted r 0 []
                      (attempted l 0 []
                         (logged ["Keys released, stopping all motors"%string] w)))))
    by chain_actuator_only.
  destruct (with_current_key_actuator_only _ _ None A) as [R2 P2].
  split; [now rewrite R2|]. split; [now rewrite P2|].
  split; [|reflexivity]. proj. now rewrite <- app_assoc.
Qed.

Lemma two_press_counts k l r w :
  opt_str_eqb (Some k) (current_key w) = false ->
  let w' := snd (TwoMotor.locked_section (Some k) l r w) in
  releases w' = releases w /\ presses w' = S (presses w).
Proof.
  intros E. destruct (two_locked_press k l r w E) as (w1 & A & ->).
  destruct (command_line_counts
              (dict_get TwoMotor.key_name k "Unknown key")
              (with_current_key w (Some k))) as [R1 P1].
  apply actuator_only_counts in A as [R2 P2].
  assert (R0 : releases (with_current_key w (Some k)) = releases w) by reflexivity.
  assert (P0 : presses (with_current_key w (Some k)) = presses w) by reflexivity.
  destruct (String.eqb k "esc"); cbn [snd];
    [change (releases (with_running w1 false)) with (releases w1);
     change (presses (with_running w1 false)) with (presses w1)|];
    split; congruence.
Qed.

(** Releases never run ahead of presses. *)
Lemma two_locked_balance key l r w :
  let w' := snd (TwoMotor.locked_section key l r w) in
  (releases w' + presses w + held w' <= presses w' + releases w + held w)%nat.
Proof.
  cbv zeta. pose proof (two_locked_current_key key l r w) as CK.
  destruct key as [k|].
  - destruct (opt_str_eqb (Some k) (current_key w)) eqn:E.
    + destruct (current_key w) as [h|] eqn:K; [|discriminate E].
      cbn [opt_str_eqb] in E. apply String.eqb_eq in E. subst h.
      rewrite (two_locked_same k l r w K). cbn [snd]. lia.
    + destruct (two_press_counts k l r w E) as [R1 P1].
      unfold held at 1. rewrite CK, R1, P1. lia.
  - destruct (current_key w) as [h|] eqn:K.
    + destruct (two_release_counts h l r w K) as (w' & -> & R1 & P1 & _ & K').
      cbn [snd]. unfold held. rewrite K', K, R1, P1. lia.
    + rewrite (two_locked_idle l r w K). cbn [snd]. lia.
Qed.

Lemma two_thread_balance l r evs :
  forall w,
    let w' := snd (TwoMotor.key_monitor_thread l r evs w) in
    (releases w' + presses w + held w' <= presses w' + releases w + held w)%nat.
Proof.
  induction evs as [|ev evs IH]; intros w; cbv zeta.
  - rewrite two_thread_nil. cbn [snd]. lia.
  - destruct (running w) eqn:R.
    2:{ rewrite two_thread_stopped by exact R. cbn [snd]. lia. }
    rewrite two_thread_cons by exact R.
    rewrite two_iteration_eq.
    set (w0 := with_term_ops w _).
    assert (E0 : releases w0 = releases w /\ presses w0 = presses w
                 /\ held w0 = held w) by (repeat split).
    destruct E0 as (R0 & P0 & H0).
    destruct (sample_two ev) as [key|e]; [|cbn [snd]; lia].
    pose proof (two_locked_balance key l r w0) as B. cbv zeta in B.
    destruct (TwoMotor.locked_section key l r w0) as [[[|]|e] w1];
      cbn [snd] in *; try lia.
    specialize (IH w1). cbv zeta in IH. lia.
Qed.

Lemma one_key_prints_no_release k w :
  count_lines "ACTION: Stopping (key released)"
    (stdout (snd (KeyControl.locked_section (Some k) w)))
  = count_lines "ACTION: Stopping (key released)" (stdout w).
Proof.
  destruct (opt_str_eqb (Some k) (current_key w)) eqn:E.
  - destruct (current_key w) as [h|] eqn:K; [|discriminate E].
    cbn [opt_str_eqb] in E. apply String.eqb_eq in E. subst h.
    now rewrite (one_locked_same k w K).
  - rewrite (one_locked_new k w E). cbv zeta. cbn [snd].
    unfold count_lines.
    destruct (String.eqb k "1"); [|destruct (String.eqb k "2");
      [|destruct (String.eqb (lower k) "q")]];
      proj; rewrite filter_app, length_app; cbn; lia.
Qed.

(** C2 (the claim as stated fails): in the two-motor script the windows
    ['a'], ['d'], empty make two holds (two presses) and one release, the
    hold of ['a'] ending without one; in the key-control script a hold of
    ['x'] ends on an empty window with no release action at all. *)
Lemma key_change_ends_hold_without_release :
  let w := snd (TwoMotor.key_monitor_thread axis0 axis1
                  [typed "a"; typed "d"; None] (world0 cooked [])) in
  let v := snd (KeyControl.key_monitor_thread [typed "x"; None]
                  (world0 cooked [])) in
  stdout w = ["Command: Right motor forward"; "Command: Left motor forward";
              "Keys released, stopping all motors"; "All motors stopped"]%string
  /\ presses w = 2%nat
  /\ releases w = 1%nat
  /\ releases w <> presses w
  /\ stdout v = ["ACTION: Stopping (other key pressed)"%string]
  /\ count_lines "ACTION: Stopping (key released)" (stdout v) = 0%nat.
Proof. vm_compute. repeat split. discriminate. Qed.

(** C2 (amended): the release action follows an empty window and nothing
    else.  In the two-motor script a cycle that samples [None] while a
    key is held prints the release line once, stops both motors and
    clears [current_key]; a cycle that samples [None] with no key held,
    or that samples a key (the held one or another), performs no
    release.  So along every run the releases never outnumber the
    presses: a hold gets one release when an empty window ends it and
    none when another key or the quit ends it.  In the key-control
    script the release action is printed in the cycles that sample
    [None] while ['1'] or ['2'] is held, and in no other cycle. *)
Theorem release_follows_empty_window
  (k : string) (evs : list tty_event) (w : world) :
  let L := TwoMotor.LEFT_MOTOR_INDEX in
  let R := TwoMotor.RIGHT_MOTOR_INDEX in
  (current_key w = Some k ->
   exists w',
     TwoMotor.locked_section None L R w = (Ret Continue, w')
     /\ releases w' = S (releases w)
     /\ commands w' = commands w ++ [stop_cmd L; stop_cmd R]
     /\ current_key w' = None)
  /\ (current_key w = None ->
      TwoMotor.locked_section None L R w = (Ret Continue, w))
  /\ releases (snd (TwoMotor.locked_section (Some k) L R w)) = releases w
  /\ (let w' := snd (TwoMotor.key_monitor_thread L R evs w) in
      releases w' + presses w + held w' <= presses w' + releases w + held w)%nat
  /\ KeyControl.locked_section None w
     = (Ret tt,
        with_current_key
          (if str_in (current_key w) ["1"; "2"]%string
           then logged ["ACTION: Stopping (key released)"%string] w
           else w)
          None)
  /\ count_lines "ACTION: Stopping (key released)"
       (stdout (snd (KeyControl.locked_section (Some k) w)))
     = count_lines "ACTION: Stopping (key released)" (stdout w).
Proof.
  intros L R.
  split.
  { intros K.
    destruct (two_release_counts k L R w K) as (w' & E & R1 & _ & C & K').
    now exists w'. }
  split; [apply two_locked_idle|].
  split.
  { destruct (opt_str_eqb (Some k) (current_key w)) eqn:E.
    - destruct (current_key w) as [h|] eqn:K; [|discriminate E].
      cbn [opt_str_eqb] in E. apply String.eqb_eq in E. subst h.
      now rewrite (two_locked_same k L R w K).
    - now destruct (two_press_counts k L R w E). }
  split; [apply two_thread_balance|].
  split; [apply one_locked_none|apply one_key_prints_no_release].
Qed.

Lemma release_follows_empty_window_witness :
  let w := snd (TwoMotor.key_monitor_thread axis0 axis1 [typed "w"]
                  (world0 cooked [])) in
  (exists w',
     TwoMotor.locked_section None axis0 axis1 w = (Ret Continue, w')
     /\ releases w' = 1%nat
     /\ commands w' = commands w ++ [(axis0, 0); (axis1, 0)]
     /\ current_key w' = None)
  /\ TwoMotor.locked_section None axis0 axis1 (world0 cooked [])
     = (Ret Continue, world0 cooked []).
Proof.
  cbv zeta.
  destruct (release_follows_empty_window "w" []
              (snd (TwoMotor.key_monitor_thread axis0 axis1 [typed "w"]
                      (world0 cooked []))))
    as (H1 & _).
  destruct (release_follows_empty_window "w" [] (world0 cooked []))
    as (_ & H2 & _).
  split; [apply H1; reflexivity|apply H2; reflexivity].
Defined.

(** * Further properties of the scripts *)

(** ** A healthy device *)

Lemma attempted_healthy a v l w :
  healthy w ->
  healthy (attempted a v l w) /\ input_vel a (attempted a v l w) = v.
Proof.
  unfold healthy, attempted. intros H.
  destruct (faults w) as [|[m|] r] eqn:F.
  - destruct a; split; cbn; try rewrite F; auto.
  - inversion H; discriminate.
  - inversion H; subst. destruct a; split; cbn; auto.
Qed.




















(** ** Ways out of the key scripts *)






(** X4: the quit key of the two-motor script.  With the monitor thread
    alive, [running] true and ["esc"] not the held key, the byte 0x1b
    followed by one wake-up of the main thread ends the process: the
    monitor thread returns, no release action is performed for the key
    that was held, and the only writes are the two stops the [finally]
    block of [main] sends. *)
Theorem escape_then_wakeup_terminates (p : process) :
  main_thread p = Waiting ->
  monitor p = Alive ->
  running (mem p) = true ->
  current_key (mem p) <> Some "esc"%string ->
  let q := TwoMotor.run [Tty (typed ESC); Tick] p in
  main_thread q = Exited
  /\ monitor q = Returned
  /\ running (mem q) = false
  /\ current_key (mem q) = Some "esc"%string
  /\ releases (mem q) = releases (mem p)
  /\ commands (mem q)
     = commands (mem p)
       ++ [stop_cmd TwoMotor.LEFT_MOTOR_INDEX;
           stop_cmd TwoMotor.RIGHT_MOTOR_INDEX].
Proof.
  intros W A R K. destruct p as [w mon mt]. cbn [main_thread monitor mem] in *.
  subst mt mon. cbv zeta. unfold TwoMotor.run. cbn [fold_left].
  assert (S : TwoMotor.step (Tty (typed ESC)) (mkProcess w Alive Waiting)
              = mkProcess
                  (with_running
                     (logged ["Command: Quit program"%string]
                        (with_current_key
                           (with_term_ops w
                              (term_ops w ++ getch_ops (typed ESC) (term w)))
                           (Some "esc"%string)))
                     false)
                  Returned Waiting).
  { unfold TwoMotor.step. cbn [main_thread monitor mem]. rewrite R.
    rewrite (two_iteration_key _ (Some "esc"%string)) by reflexivity.
    rewrite two_locked_new by (proj; now apply opt_str_eqb_neq).
    now rewrite two_dispatch_esc. }
  rewrite S, two_tick_stops by reflexivity.
  cbn [main_thread monitor mem].
  split; [reflexivity|]. split; [reflexivity|].
  split; [now proj|]. split; [now proj|].
  split.
  - match goal with
    | |- releases (logged _ (logged _ (attempted _ _ _ (attempted _ _ _ ?w1)))) = _ =>
        assert (A : actuator_only w1
                      (logged ["Program terminated."%string]
                         (logged ["All motors stopped"%string]
                            (attempted axis1 0 [] (attempted axis0 0 [] w1)))))
          by chain_actuator_only
    end.
    apply actuator_only_counts in A as [-> _].
    exact (proj1 (command_line_counts "Quit program"
                    (with_current_key
                       (with_term_ops w
                          (term_ops w ++ getch_ops (typed ESC) (term w)))
                       (Some "esc"%string)))).
  - proj. now rewrite <- app_assoc.
Qed.

Lemma escape_then_wakeup_terminates_witness :
  let p := TwoMotor.run [Tty (typed "w")] (process0 cooked []) in
  let q := TwoMotor.run [Tty (typed ESC); Tick] p in
  main_thread q = Exited
  /\ monitor q = Returned
  /\ commands (mem q) = [(axis0, 1); (axis1, 1); (axis0, 0); (axis1, 0)].
Proof.
  cbv zeta.
  assert (K : current_key
                (mem (TwoMotor.run [Tty (typed "w")] (process0 cooked [])))
              <> Some "esc"%string) by (vm_compute; discriminate).
  destruct (escape_then_wakeup_terminates
              (TwoMotor.run [Tty (typed "w")] (process0 cooked []))
              eq_refl eq_refl eq_refl K)
    as (E & M & _ & _ & _ & C).
  split; [exact E|]. split; [exact M|exact C].
Defined.

(** ** How the monitor threads end *)

Lemma one_char_is_not_esc c : String c EmptyString <> "esc"%string.
Proof. discriminate. Qed.

Lemma two_locked_none_continues l r w :
  exists w',
    TwoMotor.locked_section None l r w = (Ret Continue, w')
    /\ running w' = running w
    /\ current_key w' = None.
Proof.
  destruct (current_key w) as [h|] eqn:K.
  - rewrite (two_locked_release h l r w K). eexists.
    split; [reflexivity|]. split; [now proj|reflexivity].
  - rewrite (two_locked_idle l r w K). now exists w.
Qed.

(** X5: the end of the two-motor monitor thread is decided by the bytes
    alone.  Started with [running] true and ["esc"] not held, the thread
    dies with [KeyboardInterrupt] if the first 0x03 comes before any
    0x1b, returns if the first 0x1b comes before any 0x03, and is still
    in its loop when the windows hold neither; no other key, no release
    and no failing write ends it. *)
Theorem two_thread_ends_on_first_special_byte
  (evs : list tty_event) (w : world) :
  running w = true ->
  current_key w <> Some "esc"%string ->
  fst (TwoMotor.key_monitor_thread
         TwoMotor.LEFT_MOTOR_INDEX TwoMotor.RIGHT_MOTOR_INDEX evs w)
  = two_thread_end evs.
Proof.
  revert w. induction evs as [|ev evs IH]; intros w R K.
  - now rewrite two_thread_nil, R.
  - rewrite two_thread_cons by exact R. cbn [two_thread_end].
    destruct ev as [c|].
    + destruct (Ascii.eqb c (ascii_of_nat 3)) eqn:E3.
      { apply Ascii.eqb_eq in E3. subst c.
        now rewrite two_iteration_eq. }
      destruct (Ascii.eqb c (ascii_of_nat 27)) eqn:E27.
      { apply Ascii.eqb_eq in E27. subst c.
        rewrite (two_iteration_key _ (Some "esc"%string)) by reflexivity.
        rewrite two_locked_new by (proj; now apply opt_str_eqb_neq).
        now rewrite two_dispatch_esc. }
      destruct (two_iteration_running c TwoMotor.LEFT_MOTOR_INDEX
                  TwoMotor.RIGHT_MOTOR_INDEX w E3 E27) as (w' & E & R').
      pose proof (two_locked_current_key (Some (String c EmptyString))
                    TwoMotor.LEFT_MOTOR_INDEX TwoMotor.RIGHT_MOTOR_INDEX
                    (with_term_ops w
                       (term_ops w ++ getch_ops (Some c) (term w)))) as CK.
      rewrite <- (two_iteration_key (Some c) _ _ _ w
                    (sample_two_key c E3 E27)) in CK.
      rewrite E in *. cbn [snd] in CK.
      apply IH; [congruence|]. rewrite CK. intros X. discriminate X.
    + rewrite (two_iteration_key _ None) by reflexivity.
      destruct (two_locked_none_continues TwoMotor.LEFT_MOTOR_INDEX
                  TwoMotor.RIGHT_MOTOR_INDEX
                  (with_term_ops w (term_ops w ++ getch_ops None (term w))))
        as (w' & -> & R' & K').
      apply IH; [now rewrite R'|]. rewrite K'. discriminate.
Qed.

Lemma two_thread_ends_on_first_special_byte_witness :
  fst (TwoMotor.key_monitor_thread axis0 axis1
         [typed "w"; None; typed "x"; typed ESC; typed CTRL_C]
         (world0 cooked [Some "usb"%string]))
  = Ret Returned.
Proof.
  apply (two_thread_ends_on_first_special_byte
           [typed "w"; None; typed "x"; typed ESC; typed CTRL_C]
           (world0 cooked [Some "usb"%string])).
  - reflexivity.
  - discriminate.
Defined.

Lemma sample_one_key c :
  Ascii.eqb c (ascii_of_nat 3) = false ->
  sample_one (Some c) = Ret (Some (String c EmptyString)).
Proof.
  intros H3. unfold sample_one, CTRL_C. cbn [String.eqb]. now rewrite H3.
Qed.

Lemma one_iteration_key ev key w :
  sample_one ev = Ret key ->
  KeyControl.monitor_iteration ev w
  = KeyControl.locked_section key
      (with_term_ops w (term_ops w ++ getch_ops ev (term w))).
Proof. intros S. now rewrite one_iteration_eq, S. Qed.

Lemma one_locked_eq key w :
  KeyControl.locked_section key w
  = (Ret tt, snd (KeyControl.locked_section key w)).
Proof.
  pose proof (one_locked_returns key w) as F.
  destruct (KeyControl.locked_section key w) as [o w']. cbn in *. now subst.
Qed.

(** A key that does not ask for the quit leaves [running] as it is. *)
Lemma one_locked_keeps_running k w :
  String.eqb (lower k) "q" = false ->
  running (snd (KeyControl.locked_section (Some k) w)) = running w.
Proof.
  intros Q.
  destruct (opt_str_eqb (Some k) (current_key w)) eqn:E.
  - destruct (current_key w) as [h|] eqn:K; [|discriminate E].
    cbn [opt_str_eqb] in E. apply String.eqb_eq in E. subst h.
    now rewrite (one_locked_same k w K).
  - rewrite (one_locked_new k w E). cbv zeta. cbn [snd]. rewrite Q.
    destruct (String.eqb k "1"); [now proj|].
    destruct (String.eqb k "2"); now proj.
Qed.

(** X6: the end of the key-control monitor thread is decided by the
    bytes alone.  Started with [running] true and no quit key held, the
    thread dies with [KeyboardInterrupt] if the first 0x03 comes before
    any ['q'] or ['Q'], returns if a ['q'] or ['Q'] comes first, and is
    still in its loop otherwise; in particular the byte 0x1b does not
    end it. *)
Theorem one_thread_ends_on_first_special_byte
  (evs : list tty_event) (w : world) :
  running w = true ->
  (forall k, current_key w = Some k -> String.eqb (lower k) "q" = false) ->
  fst (KeyControl.key_monitor_thread evs w) = one_thread_end evs.
Proof.
  revert w. induction evs as [|ev evs IH]; intros w R K.
  - now rewrite one_thread_nil, R.
  - rewrite one_thread_cons by exact R. cbn [one_thread_end].
    destruct ev as [c|].
    + destruct (Ascii.eqb c (ascii_of_nat 3)) eqn:E3.
      { apply Ascii.eqb_eq in E3. subst c.
        now rewrite one_iteration_eq. }
      rewrite (one_iteration_key _ _ w (sample_one_key c E3)).
      set (w0 := with_term_ops w _).
      rewrite (one_locked_eq (Some (String c EmptyString)) w0).
      pose proof (one_locked_current_key (Some (String c EmptyString)) w0)
        as CK.
      destruct (String.eqb (lower (String c EmptyString)) "q") eqn:Q.
      * rewrite one_thread_stopped; [reflexivity|].
        rewrite one_locked_new.
        2:{ destruct (current_key w0) as [h|] eqn:K0; [|reflexivity].
            cbn [opt_str_eqb]. apply String.eqb_neq. intros <-.
            specialize (K _ K0). congruence. }
        cbv zeta. cbn [snd]. rewrite Q.
        destruct (lower_is_q (String c EmptyString)) as [[X|X] _];
          [now apply String.eqb_eq| |]; rewrite X; reflexivity.
      * apply IH.
        -- now rewrite one_locked_keeps_running.
        -- intros k K1. rewrite CK in K1. injection K1 as <-. exact Q.
    + rewrite (one_iteration_key _ None) by reflexivity.
      set (w0 := with_term_ops w _).
      rewrite (one_locked_eq None w0), one_locked_none. cbn [snd].
      apply IH.
      * destruct (str_in (current_key w0) _); now proj.
      * intros k K1. revert K1. now proj.
Qed.

Lemma one_thread_ends_on_first_special_byte_witness :
  fst (KeyControl.key_monitor_thread
         [typed "1"; None; typed ESC; typed "Q"; typed CTRL_C]
         (world0 cooked []))
  = Ret Returned.
Proof.
  apply (one_thread_ends_on_first_special_byte
           [typed "1"; None; typed ESC; typed "Q"; typed CTRL_C]
           (world0 cooked [])).
  - reflexivity.
  - intros k H. discriminate H.
Defined.

(** ** What a run leaves alone *)



(** What the key-control script cannot touch: the motors and the
    terminal settings. *)
Lemma one_locked_frame key w :
  let w' := snd (KeyControl.locked_section key w) in
  term w' = term w
  /\ commands w' = commands w
  /\ input_vel0 w' = input_vel0 w
  /\ input_vel1 w' = input_vel1 w
  /\ faults w' = faults w.
Proof.
  cbv zeta. destruct key as [k|].
  - destruct (opt_str_eqb (Some k) (current_key w)) eqn:E.
    + destruct (current_key w) as [h|] eqn:K; [|discriminate E].
      cbn [opt_str_eqb] in E. apply String.eqb_eq in E. subst h.
      now rewrite (one_locked_same k w K).
    + rewrite (one_locked_new k w E). cbv zeta. cbn [snd].
      destruct (String.eqb k "1"); [proj; now repeat split|].
      destruct (String.eqb k "2"); [proj; now repeat split|].
      destruct (String.eqb (lower k) "q"); proj; now repeat split.
  - rewrite one_locked_none. cbn [snd].
    destruct (str_in (current_key w) _); proj; now repeat split.
Qed.

Lemma one_step_frame x p :
  let w' := mem (KeyControl.step x p) in
  term w' = term (mem p)
  /\ commands w' = commands (mem p)
  /\ input_vel0 w' = input_vel0 (mem p)
  /\ input_vel1 w' = input_vel1 (mem p)
  /\ faults w' = faults (mem p).
Proof.
  cbv zeta. unfold KeyControl.step.
  destruct (main_thread p); [|now repeat split].
  destruct x as [ev| |].
  - destruct (monitor p); try (now repeat split).
    destruct (running (mem p)); [|now repeat split].
    assert (F : let w' := snd (KeyControl.monitor_iteration ev (mem p)) in
                term w' = term (mem p)
                /\ commands w' = commands (mem p)
                /\ input_vel0 w' = input_vel0 (mem p)
                /\ input_vel1 w' = input_vel1 (mem p)
                /\ faults w' = faults (mem p)).
    { cbv zeta. rewrite one_iteration_eq.
      destruct (sample_one ev) as [key|e]; [|now repeat split].
      exact (one_locked_frame key _). }
    cbv zeta in F.
    destruct (KeyControl.monitor_iteration ev (mem p)) as [[[]|e] w']; exact F.
  - cbn. now repeat split.
  - destruct (running (mem p)); cbn; now repeat split.
Qed.


(** X8: the key-control script is a dry run.  Along every run it
    attempts no write to a motor: the record of attempted writes, both
    set-points and the device are as they were. *)
Theorem key_control_never_drives (xs : list stimulus) (p : process) :
  let q := KeyControl.run xs p in
  commands (mem q) = commands (mem p)
  /\ input_vel0 (mem q) = input_vel0 (mem p)
  /\ input_vel1 (mem q) = input_vel1 (mem p)
  /\ faults (mem q) = faults (mem p).
Proof.
  cbv zeta. revert p. induction xs as [|x xs IH]; intros p;
    [now repeat split|].
  change (KeyControl.run (x :: xs) p)
    with (KeyControl.run xs (KeyControl.step x p)).
  destruct (IH (KeyControl.step x p)) as (C & V0 & V1 & F).
  destruct (one_step_frame x p) as (_ & C' & V0' & V1' & F').
  repeat split; congruence.
Qed.

(** X9: the quit keys of the two scripts are not the same.  The two
    samplers return the same value and make the same terminal calls for
    every window except the byte 0x1b, which the two-motor sampler turns
    into ["esc"] and the key-control sampler returns as a character.  So
    in the key-control script the escape key is just another key (the
    "other key pressed" action, [running] kept), and in the two-motor
    script ['q'] does not quit: it is dispatched as the rotate-left
    command and the loop continues. *)
Theorem quit_keys_differ (ev : tty_event) (w : world) :
  (ev <> Some (ascii_of_nat 27) ->
   KeyControl.getch_non_blocking ev w = TwoMotor.getch_non_blocking ev w)
  /\ fst (TwoMotor.getch_non_blocking (Some (ascii_of_nat 27)) w)
     = Ret (Some "esc"%string)
  /\ fst (KeyControl.getch_non_blocking (Some (ascii_of_nat 27)) w)
     = Ret (Some ESC)
  /\ (current_key w <> Some ESC ->
      KeyControl.locked_section (Some ESC) w
      = (Ret tt,
         logged ["ACTION: Stopping (other key pressed)"%string]
           (with_current_key w (Some ESC))))
  /\ (current_key w <> Some "q"%string ->
      exists w',
        TwoMotor.locked_section (Some "q"%string)
          TwoMotor.LEFT_MOTOR_INDEX TwoMotor.RIGHT_MOTOR_INDEX w
        = (Ret Continue, w')
        /\ running w' = running w
        /\ commands w'
           = commands w ++ [(TwoMotor.LEFT_MOTOR_INDEX, -1);
                            (TwoMotor.RIGHT_MOTOR_INDEX, 1)]).
Proof.
  split.
  { intros N. rewrite one_getch_eq, two_getch_eq. f_equal.
    destruct ev as [c|]; [|reflexivity].
    unfold sample_one, sample_two.
    destruct (String.eqb (String c EmptyString) CTRL_C); [reflexivity|].
    destruct (String.eqb (String c EmptyString) ESC) eqn:E; [|reflexivity].
    apply String.eqb_eq in E. injection E as ->. now elim N. }
  split; [now rewrite two_getch_eq|].
  split; [now rewrite one_getch_eq|].
  split.
  { intros K. now rewrite one_locked_new by now apply opt_str_eqb_neq. }
  intros K. rewrite two_locked_new by now apply opt_str_eqb_neq.
  assert (D : TwoMotor.handle_motor_control "q" axis0 axis1
                (with_current_key w (Some "q"%string))
              = (Ret true,
                 attempted axis1 1 []
                   (attempted axis0 (-1) []
                      (logged ["Command: Left motor backward, right motor forward"%string]
                         (with_current_key w (Some "q"%string))))))
    by dispatch_literal.
  unfold TwoMotor.LEFT_MOTOR_INDEX, TwoMotor.RIGHT_MOTOR_INDEX. rewrite D.
  eexists. split; [reflexivity|]. split; [now proj|].
  proj. now rewrite <- app_assoc.
Qed.

Lemma quit_keys_differ_witness :
  let w := world0 cooked [] in
  KeyControl.getch_non_blocking (typed "q") w
  = TwoMotor.getch_non_blocking (typed "q") w
  /\ KeyControl.locked_section (Some ESC) w
     = (Ret tt,
        logged ["ACTION: Stopping (other key pressed)"%string]
          (with_current_key w (Some ESC)))
  /\ exists w',
       TwoMotor.locked_section (Some "q"%string) axis0 axis1 w
       = (Ret Continue, w')
       /\ running w' = true
       /\ commands w' = [(axis0, -1); (axis1, 1)].
Proof.
  cbv zeta.
  destruct (quit_keys_differ (typed "q") (world0 cooked []))
    as (H1 & _ & _ & H4 & H5).
  split; [apply H1; discriminate|].
  split; [apply H4; discriminate|].
  apply H5; discriminate.
Defined.

(** ** The line-based script *)

Lemma wheel_only_refl w : wheel_only w w.
Proof.
  repeat split; auto. exists []. split; [now rewrite app_nil_r|constructor].
Qed.

Lemma wheel_only_trans w1 w2 w3 :
  wheel_only w1 w2 -> wheel_only w2 w3 -> wheel_only w1 w3.
Proof.
  intros (R1 & K1 & T1 & O1 & V1 & (c1 & C1 & F1) & H1)
         (R2 & K2 & T2 & O2 & V2 & (c2 & C2 & F2) & H2).
  repeat split; try congruence; auto.
  exists (c1 ++ c2). split.
  - rewrite C2, C1. now rewrite app_assoc.
  - apply Forall_app. now split.
Qed.

Lemma wheel_only_logged lines w : wheel_only w (logged lines w).
Proof.
  repeat split; auto. exists []. split; [cbn; now rewrite app_nil_r|constructor].
Qed.

Lemma wheel_only_attempted v l w : wheel_only w (attempted axis0 v l w).
Proof.
  split; [apply attempted_running|].
  split; [apply attempted_current_key|].
  split; [apply attempted_term|].
  split; [apply attempted_term_ops|].
  split; [exact (attempted_other_axis axis0 axis1 v l w eq_refl)|].
  split.
  - exists [(axis0, v)]. split; [apply attempted_commands|].
    now repeat constructor.
  - intros H. now apply attempted_healthy.
Qed.

Lemma wheel_only_stopped w : wheel_only w (wheel_stopped w).
Proof.
  eapply wheel_only_trans; [apply wheel_only_logged|apply wheel_only_attempted].
Qed.

(** The loop leaves on a quit line and on nothing else. *)
Lemma one_handle_input_ctl s w :
  exists w',
    OneWheel.handle_input s w
    = (Ret (if String.eqb (lower s) "q" then Break else Continue), w')
    /\ wheel_only w w'.
Proof.
  rewrite one_handle_input_eq.
  destruct (String.eqb s "1") eqn:E1.
  { apply String.eqb_eq in E1. subst s. eexists. split; [reflexivity|].
    apply wheel_only_attempted. }
  destruct (String.eqb s "2") eqn:E2.
  { apply String.eqb_eq in E2. subst s. eexists. split; [reflexivity|].
    apply wheel_only_attempted. }
  destruct (String.eqb s "0") eqn:E0.
  { apply String.eqb_eq in E0. subst s. eexists. split; [reflexivity|].
    apply wheel_only_attempted. }
  destruct (String.eqb (lower s) "q"); eexists; (split; [reflexivity|]).
  - eapply wheel_only_trans; [apply (wheel_only_stopped w)|].
    apply wheel_only_logged.
  - apply wheel_only_logged.
Qed.

Lemma one_input_line p s w :
  OneWheel.input p (Some (OneWheel.Line s)) w = (Ret s, logged [p] w).
Proof. reflexivity. Qed.

Lemma one_input_eof p w :
  OneWheel.input p None w = (Raise EOFError, logged [p] w).
Proof. reflexivity. Qed.

Lemma one_input_ctrlc p w :
  OneWheel.input p (Some OneWheel.CtrlC) w
  = (Raise (SystemExit 0),
     wheel_stopped
       (logged [(nl ++ "Ctrl+C detected. Exiting gracefully...")%string]
          (logged [p] w))).
Proof.
  unfold OneWheel.input, OneWheel.signal_handler.
  rewrite (bind_ret _ _ _ _ _ (print_eq _ w)).
  rewrite (bind_ret _ _ _ _ _ (print_eq _ _)).
  rewrite (bind_ret _ _ _ _ _ (one_stop_motor_eq _ _)).
  reflexivity.
Qed.

Lemma wheel_loop_nil w :
  OneWheel.command_loop [] w
  = (Raise EOFError, logged ["Enter command (1/2/0/q): "%string] w).
Proof.
  cbn [OneWheel.command_loop].
  now rewrite (bind_raise _ _ _ _ _ (one_input_eof _ w)).
Qed.

Lemma wheel_loop_ctrlc evs w :
  OneWheel.command_loop (OneWheel.CtrlC :: evs) w
  = (Raise (SystemExit 0),
     wheel_stopped
       (logged [(nl ++ "Ctrl+C detected. Exiting gracefully...")%string]
          (logged ["Enter command (1/2/0/q): "%string] w))).
Proof.
  cbn [OneWheel.command_loop].
  now rewrite (bind_raise _ _ _ _ _ (one_input_ctrlc _ w)).
Qed.

Lemma wheel_loop_line s evs w :
  OneWheel.command_loop (OneWheel.Line s :: evs) w
  = let w1 := snd (OneWheel.handle_input s
                     (logged ["Enter command (1/2/0/q): "%string] w)) in
    if String.eqb (lower s) "q" then (Ret tt, w1)
    else OneWheel.command_loop evs w1.
Proof.
  cbn [OneWheel.command_loop].
  rewrite (bind_ret _ _ _ _ _ (one_input_line _ s w)).
  destruct (one_handle_input_ctl s
              (logged ["Enter command (1/2/0/q): "%string] w)) as (w' & E & _).
  rewrite (bind_ret _ _ _ _ _ E), E. cbv zeta. cbn [snd].
  destruct (String.eqb (lower s) "q"); reflexivity.
Qed.

(** The three ways the loop can end, and what it may have touched. *)
Lemma wheel_loop_spec evs :
  forall w,
    exists w',
      OneWheel.command_loop evs w
      = (match wheel_exit evs with
         | Raise e => Raise e
         | Ret _ =>
             if existsb (fun ev => match ev with
                                   | OneWheel.Line s => String.eqb (lower s) "q"
                                   | OneWheel.CtrlC => true
                                   end) evs
             then Ret tt else Raise EOFError
         end, w')
      /\ wheel_only w w'.
Proof.
  induction evs as [|ev evs IH]; intros w.
  - rewrite wheel_loop_nil. eexists. split; [reflexivity|].
    apply wheel_only_logged.
  - destruct ev as [s|].
    + rewrite wheel_loop_line. cbv zeta. cbn [wheel_exit existsb].
      destruct (one_handle_input_ctl s
                  (logged ["Enter command (1/2/0/q): "%string] w))
        as (w1 & E & W1).
      rewrite E. cbn [snd].
      assert (W : wheel_only w w1)
        by (eapply wheel_only_trans; [apply wheel_only_logged|exact W1]).
      destruct (String.eqb (lower s) "q").
      * exists w1. now split.
      * destruct (IH w1) as (w' & E' & W'). exists w'. cbn [orb].
        split; [exact E'|]. eapply wheel_only_trans; eassumption.
    + rewrite wheel_loop_ctrlc. cbn [wheel_exit]. eexists.
      split; [reflexivity|].
      eapply wheel_only_trans; [apply wheel_only_logged|].
      eapply wheel_only_trans; [apply wheel_only_logged|].
      apply wheel_only_stopped.
Qed.

Lemma wheel_main_eq evs w :
  OneWheel.main evs w
  = match OneWheel.command_loop evs w with
    | (Ret _, w1) => (Ret tt, wheel_stopped w1)
    | (Raise e, w1) =>
        if isinstance_Exception e
        then (Ret tt,
              wheel_stopped (logged [("Error: " ++ str_exn e)%string] w1))
        else (Raise e, wheel_stopped w1)
    end.
Proof.
  unfold OneWheel.main, try_finally, try_except.
  destruct (OneWheel.command_loop evs w) as [[[]|e] w1].
  - now rewrite one_stop_motor_eq.
  - destruct (isinstance_Exception e).
    + rewrite print_eq. now rewrite one_stop_motor_eq.
    + now rewrite one_stop_motor_eq.
Qed.

(** X10: the line-based script always stops its motor last.  However
    [main] ends (a quit line, the end of input, Ctrl+C), the last write
    it attempts is the stop of its axis, so on a device that takes every
    write the set-point is zero at the end; it writes to no other axis
    and leaves the terminal settings and the globals of the key scripts
    alone. *)
Theorem wheel_main_stops_last
  (evs : list OneWheel.console_event) (w : world) :
  let w' := snd (OneWheel.main evs w) in
  (exists cmds,
     commands w' = commands w ++ cmds ++ [stop_cmd OneWheel.MOTOR_INDEX]
     /\ Forall (fun c => fst c = OneWheel.MOTOR_INDEX) cmds)
  /\ (healthy w -> input_vel0 w' = 0)
  /\ input_vel1 w' = input_vel1 w
  /\ term w' = term w
  /\ running w' = running w
  /\ current_key w' = current_key w.
Proof.
  cbv zeta.
  assert (S : exists w1,
             snd (OneWheel.main evs w) = wheel_stopped w1 /\ wheel_only w w1).
  { rewrite wheel_main_eq.
    destruct (wheel_loop_spec evs w) as (w1 & E & W). rewrite E.
    destruct (match wheel_exit evs with Raise e => Raise e | Ret _ => _ end)
      as [[]|e].
    - now exists w1.
    - destruct (isinstance_Exception e).
      + eexists. split; [reflexivity|].
        eapply wheel_only_trans; [exact W|apply wheel_only_logged].
      + now exists w1. }
  destruct S as (w1 & -> & (R & K & T & O & V & (cmds & C & F) & H)).
  unfold wheel_stopped.
  split.
  { exists cmds. split; [|exact F]. proj. rewrite C.
    now rewrite <- app_assoc. }
  split.
  { intros Hw.
    exact (proj2 (attempted_healthy axis0 0 _ (logged _ w1) (H Hw))). }
  split.
  { change (input_vel axis1 (attempted axis0 0 ["Velocity set to: 0 counts/s"%string]
                               (logged ["Stopping motor..."%string] w1))
            = input_vel1 w).
    rewrite attempted_other_axis by reflexivity. exact V. }
  proj. now repeat split.
Qed.

Lemma wheel_main_stops_last_witness :
  let w' := snd (OneWheel.main [OneWheel.Line "1"; OneWheel.Line "2"]
                   (world0 cooked [None])) in
  input_vel0 w' = 0 /\ commands w' = [(axis0, 1); (axis0, -1); (axis0, 0)].
Proof.
  cbv zeta.
  destruct (wheel_main_stops_last [OneWheel.Line "1"; OneWheel.Line "2"]
              (world0 cooked [None])) as (_ & H & _).
  split; [apply H; repeat constructor|reflexivity].
Defined.







Lemma wheel_line_tracks s w :
  healthy w ->
  let w' := snd (OneWheel.handle_input s w) in
  String.eqb (lower s) "q" = false ->
  healthy w' /\ input_vel0 w' = wheel_track (input_vel0 w) s.
Proof.
  intros H. cbv zeta. intros Q. rewrite one_handle_input_eq.
  unfold wheel_track, wheel_setpoint.
  destruct (String.eqb s "1");
    [cbn [snd]; exact (attempted_healthy axis0 1 _ w H)|].
  destruct (String.eqb s "2");
    [cbn [snd]; exact (attempted_healthy axis0 (-1) _ w H)|].
  destruct (String.eqb s "0");
    [cbn [snd]; exact (attempted_healthy axis0 0 _ w H)|].
  rewrite Q. cbn [snd]. now split.
Qed.

(** X13: on a device that takes every write, the set-point of the
    line-based script follows the last motion command.  After any lines
    without a quit, when the input runs out, the set-point is that of
    the last line among ['1'] (+1), ['2'] (-1), ['0'] (0), or the
    initial one if there was none; invalid lines change nothing. *)
Theorem wheel_setpoint_follows_last_command (ls : list string) (w : world) :
  healthy w ->
  Forall (fun s => lower s <> "q"%string) ls ->
  input_vel0 (snd (OneWheel.command_loop (map OneWheel.Line ls) w))
  = fold_left wheel_track ls (input_vel0 w).
Proof.
  revert w. induction ls as [|s ls IH]; intros w H F.
  - now rewrite wheel_loop_nil.
  - inversion F as [|? ? Q F']; subst. apply String.eqb_neq in Q.
    cbn [map fold_left]. rewrite wheel_loop_line. cbv zeta. rewrite Q.
    destruct (wheel_line_tracks s
                (logged ["Enter command (1/2/0/q): "%string] w) H Q)
      as [H' V].
    rewrite IH by assumption. now rewrite V.
Qed.

Lemma wheel_setpoint_follows_last_command_witness :
  input_vel0
    (snd (OneWheel.command_loop
            (map OneWheel.Line ["1"; "x"; "2"; "go"]%string)
            (world0 cooked [])))
  = -1.
Proof.
  apply (wheel_setpoint_follows_last_command ["1"; "x"; "2"; "go"]%string
           (world0 cooked [])).
  - constructor.
  - repeat constructor; discriminate.
Defined.

(** ** The two-axis keys *)

Lemma two_writes_pair a b u v w :
  axis_eqb a b = false ->
  healthy w ->
  let w' := attempted b v [] (attempted a u [] w) in
  healthy w' /\ input_vel a w' = u /\ input_vel b w' = v.
Proof.
  intros N H. cbv zeta.
  destruct (attempted_healthy a u [] w H) as [H1 V1].
  destruct (attempted_healthy b v [] _ H1) as [H2 V2].
  split; [exact H2|]. split; [|exact V2].
  rewrite attempted_other_axis; [exact V1|].
  destruct a, b; try discriminate N; reflexivity.
Qed.

(** X14: every two-axis key of the two-motor dispatcher overwrites both
    set-points.  On a device that takes every write, after ['w'], ['s'],
    ['a'], ['d'], ['q'], ['e'], ['x'] the pair (left, right) is
    (+1,+1), (-1,-1), (0,+1), (+1,0), (-1,+1), (+1,-1), (0,0), whatever
    the set-points were before, so these keys can follow one another, or
    a single-axis key, without a release in between; ['a'] and ['e']
    write the right motor first, the others the left. *)
Theorem two_axis_keys_overwrite_both (w : world) :
  healthy w ->
  let L := TwoMotor.LEFT_MOTOR_INDEX in
  let R := TwoMotor.RIGHT_MOTOR_INDEX in
  let after k := snd (TwoMotor.handle_motor_control k L R w) in
  let pair k := (input_vel L (after k), input_vel R (after k)) in
  (pair "w"%string = (1, 1)
   /\ pair "s"%string = (-1, -1)
   /\ pair "a"%string = (0, 1)
   /\ pair "d"%string = (1, 0)
   /\ pair "q"%string = (-1, 1)
   /\ pair "e"%string = (1, -1)
   /\ pair "x"%string = (0, 0))
  /\ (commands (after "w"%string) = commands w ++ [(L, 1); (R, 1)]
      /\ commands (after "s"%string) = commands w ++ [(L, -1); (R, -1)]
      /\ commands (after "a"%string) = commands w ++ [(R, 1); (L, 0)]
      /\ commands (after "d"%string) = commands w ++ [(L, 1); (R, 0)]
      /\ commands (after "q"%string) = commands w ++ [(L, -1); (R, 1)]
      /\ commands (after "e"%string) = commands w ++ [(R, -1); (L, 1)]
      /\ commands (after "x"%string) = commands w ++ [(L, 0); (R, 0)]).
Proof.
  intros H L R after pair. subst pair after L R. cbv beta.
  unfold TwoMotor.LEFT_MOTOR_INDEX, TwoMotor.RIGHT_MOTOR_INDEX.
  assert (Dw : TwoMotor.handle_motor_control "w" axis0 axis1 w
               = (Ret true, attempted axis1 1 [] (attempted axis0 1 []
                    (logged ["Command: Both motors forward"%string] w))))
    by dispatch_literal.
  assert (Ds : TwoMotor.handle_motor_control "s" axis0 axis1 w
               = (Ret true, attempted axis1 (-1) [] (attempted axis0 (-1) []
                    (logged ["Command: Both motors backward"%string] w))))
    by dispatch_literal.
  assert (Da : TwoMotor.handle_motor_control "a" axis0 axis1 w
               = (Ret true, attempted axis0 0 [] (attempted axis1 1 []
                    (logged ["Command: Right motor forward"%string] w))))
    by dispatch_literal.
  assert (Dd : TwoMotor.handle_motor_control "d" axis0 axis1 w
               = (Ret true, attempted axis1 0 [] (attempted axis0 1 []
                    (logged ["Command: Left motor forward"%string] w))))
    by dispatch_literal.
  assert (Dq : TwoMotor.handle_motor_control "q" axis0 axis1 w
               = (Ret true, attempted axis1 1 [] (attempted axis0 (-1) []
                    (logged ["Command: Left motor backward, right motor forward"%string] w))))
    by dispatch_literal.
  assert (De : TwoMotor.handle_motor_control "e" axis0 axis1 w
               = (Ret true, attempted axis0 1 [] (attempted axis1 (-1) []
                    (logged ["Command: Right motor backward, left motor forward"%string] w))))
    by dispatch_literal.
  assert (Dx : TwoMotor.handle_motor_control "x" axis0 axis1 w
               = (Ret true, logged ["All motors stopped"%string]
                    (attempted axis1 0 [] (attempted axis0 0 []
                       (logged ["Command: Stop all motors"%string] w)))))
    by dispatch_literal.
  rewrite Dw, Ds, Da, Dd, Dq, De, Dx. cbn [snd].
  rewrite !logged_input_vel.
  split.
  - repeat split;
      match goal with
      | |- (input_vel _ (attempted ?c ?v [] (attempted ?b ?u [] ?x)), _) = _ =>
          let P := fresh in
          let Q := fresh in
          destruct (two_writes_pair b c u v x eq_refl H) as (_ & P & Q);
          rewrite P, Q; reflexivity
      end.
  - proj. rewrite <- !app_assoc. repeat split.
Qed.

Lemma two_axis_keys_overwrite_both_witness :
  let w := snd (TwoMotor.handle_motor_control "1" axis0 axis1
                  (world0 cooked [None; None; None])) in
  input_vel0 w = 1
  /\ (input_vel axis0 (snd (TwoMotor.handle_motor_control "a" axis0 axis1 w)),
      input_vel axis1 (snd (TwoMotor.handle_motor_control "a" axis0 axis1 w)))
     = (0, 1).
Proof.
  cbv zeta. split; [reflexivity|].
  assert (H : healthy (snd (TwoMotor.handle_motor_control "1" axis0 axis1
                              (world0 cooked [None; None; None]))))
    by (vm_compute; repeat constructor).
  destruct (two_axis_keys_overwrite_both _ H) as ((_ & _ & A & _) & _).
  exact A.
Defined.

(** ** Start-up *)

Lemma boot_frame_refl s : boot_frame s s.
Proof. now repeat split. Qed.

Lemma boot_frame_trans s1 s2 s3 :
  boot_frame s1 s2 -> boot_frame s2 s3 -> boot_frame s1 s3.
Proof.
  intros (A1 & B1 & C1 & D1 & E1 & F1 & G1) (A2 & B2 & C2 & D2 & E2 & F2 & G2).
  repeat split; congruence.
Qed.

Lemma logged_logged a b w : logged b (logged a w) = logged (a ++ b) w.
Proof.
  destruct w. unfold logged, with_stdout. cbn. now rewrite app_assoc.
Qed.

Lemma print_all_eq lines s :
  Boot.print_all lines s
  = (Ret tt, Boot.mkState (logged lines (Boot.os s)) (Boot.config s)).
Proof.
  revert s. induction lines as [|l lines IH]; intros [w cfg].
  - cbn. now rewrite logged_nil.
  - cbn [Boot.print_all]. unfold Boot.bbind, Boot.lift at 1.
    cbn [Boot.os Boot.config]. rewrite print_eq, IH.
    cbn [Boot.os Boot.config]. now rewrite logged_logged.
Qed.

Lemma find_odrive_spec r s :
  exists s',
    Boot.find_odrive r s
    = (match Boot.find_any r with
       | inr sn => Ret sn
       | inl _ => Raise (Boot.startup_failure r)
       end, s')
    /\ boot_frame s s'
    /\ Boot.config s' = Boot.config s
    /\ faults (Boot.os s') = faults (Boot.os s).
Proof.
  destruct s as [w cfg]. unfold Boot.find_odrive, Boot.startup_failure.
  unfold Boot.bbind, Boot.btry_except, Boot.lift, Boot.odrive_find_any,
    Boot.sys_exit, Boot.braise, Boot.bret.
  cbn [Boot.os Boot.config]. rewrite !print_eq.
  destruct (Boot.find_any r) as [e|sn].
  - destruct (isinstance_Exception e); cbn [Boot.os Boot.config];
      try rewrite print_eq; eexists; (split; [reflexivity|]);
      now repeat split.
  - cbn [Boot.os Boot.config]. rewrite print_eq. eexists.
    split; [reflexivity|]. now repeat split.
Qed.

Lemma setup_motor_spec failed r a s :
  let ok := Boot.has_axis r a && Boot.writes_ok 2 (faults (Boot.os s)) in
  exists s',
    Boot.setup_motor_with failed r a s
    = (if ok then Ret a else Raise (SystemExit 1), s')
    /\ boot_frame s s'
    /\ (exists k, Boot.config s' = Boot.config s ++ firstn k (setup_writes a))
    /\ (Boot.has_axis r a = false -> Boot.config s' = Boot.config s)
    /\ (ok = true ->
        Boot.config s' = Boot.config s ++ setup_writes a
        /\ faults (Boot.os s') = skipn 2 (faults (Boot.os s))).
Proof.
  destruct s as [[out tm ops v0 v1 cmds fs run ck] cfg]. cbv zeta.
  unfold Boot.has_axis, Boot.setup_motor_with, Boot.getattr_axis,
    Boot.bbind, Boot.btry_except, Boot.assign_config, Boot.lift,
    Boot.sys_exit, Boot.braise, Boot.bret, sleep, ret, print, modify,
    setup_writes.
  cbn [Boot.os Boot.config faults with_faults with_stdout stdout].
  destruct (Boot.missing r a) as [msg|].
  { cbn. eexists. split; [reflexivity|].
    split; [now repeat split|].
    split; [exists 0%nat; cbn; now rewrite app_nil_r|].
    split; [reflexivity|discriminate]. }
  destruct fs as [|[m|] [|[m2|] rest]]; cbn;
    (eexists; split; [reflexivity|]);
    (split; [now repeat split|]);
    (split;
     [first [ exists 2%nat; cbn; now rewrite <- app_assoc
            | exists 1%nat; reflexivity ]|]);
    (split; [discriminate|]);
    try discriminate; intros _; split;
      try reflexivity; now rewrite <- app_assoc.
Qed.

Lemma writes_ok_4 fs :
  Boot.writes_ok 4 fs = Boot.writes_ok 2 fs && Boot.writes_ok 2 (skipn 2 fs).
Proof.
  destruct fs as [|[m|] [|[m2|] [|[m3|] [|[m4|] rest]]]]; reflexivity.
Qed.

Lemma bbind_ret {A C} (m : Boot.B A) (k : A -> Boot.B C) s a s' :
  m s = (Ret a, s') -> Boot.bbind m k s = k a s'.
Proof. intros E. unfold Boot.bbind. now rewrite E. Qed.

Lemma bbind_raise {A C} (m : Boot.B A) (k : A -> Boot.B C) s e s' :
  m s = (Raise e, s') -> Boot.bbind m k s = (Raise e, s').
Proof. intros E. unfold Boot.bbind. now rewrite E. Qed.

Lemma startup_failure_found r :
  Boot.found r = true -> Boot.startup_failure r = SystemExit 1.
Proof.
  unfold Boot.found, Boot.startup_failure.
  destruct (Boot.find_any r); [discriminate|reflexivity].
Qed.

(** X15: start-up of the two-motor script hands over both axes or
    leaves the process.  [main] reaches the registration of its signal
    handler exactly when [find_any] returns a board, the board has both
    axes and the device takes the four configuration writes; both axes
    then have [control_mode = 2] and [requested_state = 8] written, left
    axis first.  In every other case the head of [main] ends with
    [SystemExit(1)] (or with the exception of [find_any] that [except
    Exception] does not catch).  Either way start-up writes no
    set-point and touches neither the globals nor the terminal. *)
Theorem two_startup_hands_over_or_exits (r : Boot.rig) (s : Boot.state) :
  let ok := Boot.found r
            && Boot.has_axis r TwoMotor.LEFT_MOTOR_INDEX
            && Boot.has_axis r TwoMotor.RIGHT_MOTOR_INDEX
            && Boot.writes_ok 4 (faults (Boot.os s)) in
  exists s',
    Boot.Two.main_startup r s
    = (if ok
       then Ret (TwoMotor.LEFT_MOTOR_INDEX, TwoMotor.RIGHT_MOTOR_INDEX)
       else Raise (Boot.startup_failure r), s')
    /\ boot_frame s s'
    /\ (ok = true ->
        Boot.config s'
        = Boot.config s
          ++ setup_writes TwoMotor.LEFT_MOTOR_INDEX
          ++ setup_writes TwoMotor.RIGHT_MOTOR_INDEX)
    /\ (Boot.found r = false -> Boot.config s' = Boot.config s).
Proof.
  cbv zeta. unfold Boot.Two.main_startup.
  unfold TwoMotor.LEFT_MOTOR_INDEX, TwoMotor.RIGHT_MOTOR_INDEX.
  rewrite (bbind_ret _ _ _ _ _ (print_all_eq _ s)).
  set (s0 := Boot.mkState _ _).
  assert (F0 : boot_frame s s0) by now repeat split.
  destruct (find_odrive_spec r s0) as (s1 & E1 & F1 & C1 & T1).
  unfold Boot.found in *.
  destruct (Boot.find_any r) as [e|sn] eqn:FA.
  { rewrite (bbind_raise _ _ _ _ _ E1). cbn [andb]. exists s1.
    split; [reflexivity|].
    split; [exact (boot_frame_trans _ _ _ F0 F1)|].
    split; [discriminate|]. intros _. exact C1. }
  rewrite (bbind_ret _ _ _ _ _ E1).
  assert (SF : Boot.startup_failure r = SystemExit 1)
    by (apply startup_failure_found; unfold Boot.found; now rewrite FA).
  rewrite SF. cbn [andb].
  destruct (setup_motor_spec
              (fun motor_index =>
                 ("Failed to setup motor on axis"
                  ++ Boot.axis_index motor_index ++ ": ")%string)
              r axis0 s1) as (s2 & E2 & F2 & _ & _ & O2).
  cbv zeta in E2, O2. fold Boot.Two.setup_motor in E2.
  rewrite writes_ok_4.
  replace (faults (Boot.os s)) with (faults (Boot.os s1)) by (now rewrite T1).
  destruct (Boot.has_axis r axis0 && Boot.writes_ok 2 (faults (Boot.os s1)))
    eqn:OK0.
  2:{ rewrite (bbind_raise _ _ _ _ _ E2). exists s2.
      assert (X : Boot.has_axis r axis0 && Boot.has_axis r axis1
                  && (Boot.writes_ok 2 (faults (Boot.os s1))
                      && Boot.writes_ok 2 (skipn 2 (faults (Boot.os s1))))
                  = false).
      { destruct (Boot.has_axis r axis0), (Boot.has_axis r axis1),
          (Boot.writes_ok 2 (faults (Boot.os s1))); try reflexivity;
          discriminate OK0. }
      rewrite X. split; [reflexivity|].
      split; [exact (boot_frame_trans _ _ _
                       (boot_frame_trans _ _ _ F0 F1) F2)|].
      split; discriminate. }
  rewrite (bbind_ret _ _ _ _ _ E2).
  destruct (O2 eq_refl) as [C2 T2].
  apply andb_true_iff in OK0 as [A0 W0]. rewrite A0, W0. cbn [andb].
  destruct (setup_motor_spec
              (fun motor_index =>
                 ("Failed to setup motor on axis"
                  ++ Boot.axis_index motor_index ++ ": ")%string)
              r axis1 s2) as (s3 & E3 & F3 & _ & _ & O3).
  cbv zeta in E3, O3. fold Boot.Two.setup_motor in E3.
  rewrite T2 in E3, O3.
  assert (F : boot_frame s s3).
  { exact (boot_frame_trans _ _ _
             (boot_frame_trans _ _ _ (boot_frame_trans _ _ _ F0 F1) F2) F3). }
  destruct (Boot.has_axis r axis1
            && Boot.writes_ok 2 (skipn 2 (faults (Boot.os s1)))) eqn:OK1.
  - rewrite (bbind_ret _ _ _ _ _ E3). exists s3.
    split; [reflexivity|]. split; [exact F|].
    split; [|discriminate]. intros _.
    destruct (O3 eq_refl) as [C3 _]. rewrite C3, C2, C1.
    now rewrite <- app_assoc.
  - rewrite (bbind_raise _ _ _ _ _ E3). exists s3.
    split; [reflexivity|]. split; [exact F|]. split; discriminate.
Qed.

Lemma two_startup_hands_over_or_exits_witness :
  let one_axis_board :=
    Boot.mkRig (inr 123)
      (fun a => match a with
                | axis0 => None
                | axis1 => Some "no attribute axis1"%string
                end) in
  let s := Boot.mkState (world0 cooked []) [] in
  fst (Boot.Two.main_startup one_axis_board s) = Raise (SystemExit 1)
  /\ Boot.config (snd (Boot.Two.main_startup one_axis_board s))
     = setup_writes axis0
  /\ commands (Boot.os (snd (Boot.Two.main_startup one_axis_board s))) = [].
Proof.
  cbv zeta.
  destruct (two_startup_hands_over_or_exits
              (Boot.mkRig (inr 123)
                 (fun a => match a with
                           | axis0 => None
                           | axis1 => Some "no attribute axis1"%string
                           end))
              (Boot.mkState (world0 cooked []) []))
    as (s' & E & (C & _) & _).
  rewrite E. split; [reflexivity|]. split; [|exact C].
  apply (f_equal snd) in E. cbn [snd] in E. rewrite <- E.
  vm_compute. reflexivity.
Defined.

(** The shape of every run of [main] of the line-based script. *)
Lemma wheel_main_shape evs w :
  exists w1,
    OneWheel.main evs w = (wheel_exit evs, wheel_stopped w1)
    /\ wheel_only w w1.
Proof.
  rewrite wheel_main_eq.
  destruct (wheel_loop_spec evs w) as (w1 & E & W). rewrite E.
  assert (X : wheel_exit evs = Ret tt
              \/ wheel_exit evs = Raise (SystemExit 0)).
  { clear. induction evs as [|[s|] l IH]; cbn; auto.
    destruct (String.eqb (lower s) "q"); auto. }
  destruct X as [-> | ->].
  - destruct (existsb _ evs).
    + now exists w1.
    + cbn [isinstance_Exception]. eexists. split; [reflexivity|].
      eapply wheel_only_trans; [exact W|apply wheel_only_logged].
  - now exists w1.
Qed.

(** X16: the line-based script from its first line.  When [find_any]
    raises, the board has no axis 0 or the device refuses one of the two
    configuration writes, the process leaves from start-up and the motor
    is never commanded, not even stopped (the [finally] block is not yet
    entered).  Otherwise the axis is configured with [control_mode = 2]
    and [requested_state = 8], the way [main] ends is decided by the
    console events alone, and the last write is the stop of the motor. *)
Theorem wheel_program_startup_then_loop
  (r : Boot.rig) (evs : list OneWheel.console_event) (s : Boot.state) :
  let ok := Boot.found r
            && Boot.has_axis r OneWheel.MOTOR_INDEX
            && Boot.writes_ok 2 (faults (Boot.os s)) in
  let res := Boot.One.main r evs s in
  (ok = false ->
   fst res = Raise (Boot.startup_failure r)
   /\ commands (Boot.os (snd res)) = commands (Boot.os s)
   /\ input_vel0 (Boot.os (snd res)) = input_vel0 (Boot.os s))
  /\ (ok = true ->
      fst res = wheel_exit evs
      /\ Boot.config (snd res)
         = Boot.config s ++ setup_writes OneWheel.MOTOR_INDEX
      /\ exists cmds,
           commands (Boot.os (snd res))
           = commands (Boot.os s) ++ cmds ++ [stop_cmd OneWheel.MOTOR_INDEX]).
Proof.
  cbv zeta. unfold Boot.One.main, OneWheel.MOTOR_INDEX.
  rewrite (bbind_ret _ _ _ _ _ (print_all_eq _ s)).
  set (s0 := Boot.mkState _ _).
  assert (F0 : boot_frame s s0) by now repeat split.
  destruct (find_odrive_spec r s0) as (s1 & E1 & F1 & C1 & T1).
  unfold Boot.found in *.
  destruct (Boot.find_any r) as [e|sn] eqn:FA.
  { rewrite (bbind_raise _ _ _ _ _ E1). cbn [andb fst snd].
    split; [|discriminate]. intros _.
    destruct (boot_frame_trans _ _ _ F0 F1) as (C & V & _).
    now repeat split. }
  rewrite (bbind_ret _ _ _ _ _ E1).
  assert (SF : Boot.startup_failure r = SystemExit 1)
    by (apply startup_failure_found; unfold Boot.found; now rewrite FA).
  rewrite SF. cbn [andb].
  destruct (setup_motor_spec (fun _ => "Failed to setup motor: "%string)
              r axis0 s1) as (s2 & E2 & F2 & _ & _ & O2).
  cbv zeta in E2, O2. fold Boot.One.setup_motor in E2.
  replace (faults (Boot.os s)) with (faults (Boot.os s1)) by (now rewrite T1).
  destruct (boot_frame_trans _ _ _ (boot_frame_trans _ _ _ F0 F1) F2)
    as (C & V & _).
  destruct (Boot.has_axis r axis0 && Boot.writes_ok 2 (faults (Boot.os s1))).
  - rewrite (bbind_ret _ _ _ _ _ E2). split; [discriminate|]. intros _.
    destruct (O2 eq_refl) as [C2 _].
    destruct (wheel_main_shape evs (Boot.os s2))
      as (w1 & E & (_ & _ & _ & _ & _ & (cmds & Cm & _) & _)).
    unfold Boot.lift. rewrite E. cbn [fst snd Boot.os Boot.config].
    split; [reflexivity|]. split; [now rewrite C2, C1|].
    exists cmds. unfold wheel_stopped. proj. rewrite Cm, C.
    now rewrite <- app_assoc.
  - rewrite (bbind_raise _ _ _ _ _ E2). cbn [fst snd].
    split; [|discriminate]. intros _. now repeat split.
Qed.

Lemma wheel_program_startup_then_loop_witness :
  let absent := Boot.mkRig (inl (Exception "no board")) (fun _ => None) in
  let present := Boot.mkRig (inr 7) (fun _ => None) in
  let s := Boot.mkState (world0 cooked []) [] in
  (fst (Boot.One.main absent [OneWheel.Line "1"] s) = Raise (SystemExit 1)
   /\ commands (Boot.os (snd (Boot.One.main absent [OneWheel.Line "1"] s))) = [])
  /\ fst (Boot.One.main present [OneWheel.Line "1"; OneWheel.CtrlC] s)
     = Raise (SystemExit 0).
Proof.
  cbv zeta.
  destruct (wheel_program_startup_then_loop
              (Boot.mkRig (inl (Exception "no board")) (fun _ => None))
              [OneWheel.Line "1"] (Boot.mkState (world0 cooked []) []))
    as (H & _).
  destruct (wheel_program_startup_then_loop
              (Boot.mkRig (inr 7) (fun _ => None))
              [OneWheel.Line "1"; OneWheel.CtrlC]
              (Boot.mkState (world0 cooked []) []))
    as (_ & K).
  split.
  - destruct (H eq_refl) as (A & B & _). split; [exact A|exact B].
  - destruct (K eq_refl) as (A & _). exact A.
Defined.
